(** * The 2D segmentation notebook of delira: dataset, pipeline, data manager

    A shallow embedding of [notebooks/segmentation_2d_pytorch.ipynb].  The
    notebook is Python: its objects live in one store and are passed around
    by reference, so the store is explicit here and every operation is a
    function from stores to an outcome and a store. *)

From stdpp Require Import base gmap strings list.
From Stdlib Require Import ZArith Lia.

Open Scope Z_scope.

(** ** Python objects *)

Definition loc := positive.

Inductive exn :=
| AssertionError
| AttributeError
| IndexError
| KeyError
| OverflowError
| TypeError
| ValueError.

(** What a Python name can be bound to, as far as the notebook goes. *)
Inductive value :=
| VNone
| VInt (n : Z)
| VRef (l : loc).

Inductive result (A : Type) :=
| Ok (a : A)
| Raise (e : exn).

Arguments Ok {A} a.
Arguments Raise {A} e.

#[global] Instance exn_eq_dec : EqDecision exn.
Proof. solve_decision. Defined.

#[global] Instance value_eq_dec : EqDecision value.
Proof. solve_decision. Defined.

(** [sys.maxsize] of a 64-bit CPython. *)
Definition sys_maxsize : Z := 2 ^ 63 - 1.

(** Number of elements of an array of shape [s] ([ndarray.size]). *)
Definition shape_size (s : list nat) : nat := foldr Nat.mul 1%nat s.

(** [ndarray.reshape] resolves the requested shape against the number of
    elements: all entries non-negative and their product the size, or
    exactly one negative entry ([-1] by convention, but numpy takes any
    negative number), which is inferred.  Anything else is numpy's
    [ValueError]. *)
Definition resolve_shape (size : nat) (newshape : list Z) : option (list nat) :=
  if decide (Forall (fun d => 0 <= d) newshape) then
    let s := Z.to_nat <$> newshape in
    if decide (shape_size s = size) then Some s else None
  else
    let known := Z.to_nat <$> filter (fun d => 0 <= d) newshape in
    if decide (length (filter (fun d => d < 0) newshape) = 1%nat) then
      let p := shape_size known in
      if decide (p <> 0%nat /\ (size mod p = 0)%nat) then
        Some ((fun d => if decide (d < 0) then (size / p)%nat else Z.to_nat d)
                <$> newshape)
      else None
    else None.

Section Store.

(** The element type of arrays (float32 in the notebook) stays abstract:
    nothing below computes with array elements. *)
Context {elt : Type}.

(** An [ndarray] is a view: a shape and the storage it addresses, whose
    cells are listed in the row-major order of the view.  Two views with
    the same [base] share their elements. *)
Inductive obj :=
| OBuffer (cells : list elt)
| ONdarray (shape : list nat) (base : loc)
| ODict (items : gmap string value)
| OInstance (attrs : gmap string value).

Abbreviation heap := (gmap loc obj).

(** Store-passing computations that may raise; the store survives a raise,
    as in Python. *)
Definition M (A : Type) : Type := heap -> result A * heap.

Definition ret {A} (a : A) : M A := fun h => (Ok a, h).

Definition raise {A} (e : exn) : M A := fun h => (Raise e, h).

Definition bind {A B} (c : M A) (k : A -> M B) : M B :=
  fun h =>
    match c h with
    | (Ok a, h') => k a h'
    | (Raise e, h') => (Raise e, h')
    end.

Notation "x <- c ;; k" := (bind c (fun x => k))
  (at level 100, c at next level, right associativity).
Notation "c ;;; k" := (bind c (fun _ => k))
  (at level 100, right associativity).

Definition alloc (o : obj) : M loc :=
  fun h => let l := fresh (dom h) in (Ok l, <[l := o]> h).

(** [obj.name], for the attributes an instance holds itself.  (A name the
    instance does not hold Python looks up on its class; classes are not
    objects of this store, and the answer [AttributeError] given here is
    that of a name no class defines.  The notebook reads [data] and
    [num_samples] only, both held by the instance.) *)
Definition getattr (self : value) (name : string) : M value :=
  fun h =>
    match self with
    | VRef l =>
        match h !! l with
        | Some (OInstance attrs) =>
            match attrs !! name with
            | Some v => (Ok v, h)
            | None => (Raise AttributeError, h)
            end
        | _ => (Raise AttributeError, h)
        end
    | _ => (Raise AttributeError, h)
    end.

(** [obj.name = v] *)
Definition setattr (self : value) (name : string) (v : value) : M unit :=
  fun h =>
    match self with
    | VRef l =>
        match h !! l with
        | Some (OInstance attrs) =>
            (Ok tt, <[l := OInstance (<[name := v]> attrs)]> h)
        | _ => (Raise AttributeError, h)
        end
    | _ => (Raise AttributeError, h)
    end.

(** [a.shape], for the objects of this store: the arrays have a shape,
    [None], the integers and the dicts have no such attribute.  (Whether an
    instance has one depends on its class, which is not part of the store;
    the model answers as for a class that defines none.) *)
Definition ndarray_shape (a : value) : M (list nat) :=
  fun h =>
    match a with
    | VRef l =>
        match h !! l with
        | Some (ONdarray s _) => (Ok s, h)
        | _ => (Raise AttributeError, h)
        end
    | _ => (Raise AttributeError, h)
    end.

(** [a.reshape( *newshape )]: a new array object over the same storage. *)
Definition ndarray_reshape (a : value) (newshape : list Z) : M value :=
  fun h =>
    match a with
    | VRef l =>
        match h !! l with
        | Some (ONdarray s b) =>
            match resolve_shape (shape_size s) newshape with
            | Some s' => (l' <- alloc (ONdarray s' b) ;; ret (VRef l')) h
            | None => (Raise ValueError, h)
            end
        | _ => (Raise AttributeError, h)
        end
    | _ => (Raise AttributeError, h)
    end.

(** [a.astype(dtype)]: a fresh array with storage of its own. *)
Definition ndarray_astype (cast : elt -> elt) (a : value) : M value :=
  fun h =>
    match a with
    | VRef l =>
        match h !! l with
        | Some (ONdarray s b) =>
            match h !! b with
            | Some (OBuffer cells) =>
                (b' <- alloc (OBuffer (cast <$> cells)) ;;
                 l' <- alloc (ONdarray s b') ;;
                 ret (VRef l')) h
            | _ => (Raise TypeError, h)
            end
        | _ => (Raise AttributeError, h)
        end
    | _ => (Raise AttributeError, h)
    end.

(** [a.flat[i] = x]: an in-place write of one element. *)
Definition ndarray_setflat (a : value) (i : nat) (x : elt) : M unit :=
  fun h =>
    match a with
    | VRef l =>
        match h !! l with
        | Some (ONdarray s b) =>
            match h !! b with
            | Some (OBuffer cells) =>
                if decide (i < length cells)%nat
                then (Ok tt, <[b := OBuffer (<[i := x]> cells)]> h)
                else (Raise IndexError, h)
            | _ => (Raise TypeError, h)
            end
        | _ => (Raise TypeError, h)
        end
    | _ => (Raise TypeError, h)
    end.

(** [d[k]] *)
Definition dict_getitem (d : value) (k : string) : M value :=
  fun h =>
    match d with
    | VRef l =>
        match h !! l with
        | Some (ODict items) =>
            match items !! k with
            | Some v => (Ok v, h)
            | None => (Raise KeyError, h)
            end
        | _ => (Raise TypeError, h)
        end
    | _ => (Raise TypeError, h)
    end.

(** [d[k] = v] *)
Definition dict_setitem (d : value) (k : string) (v : value) : M unit :=
  fun h =>
    match d with
    | VRef l =>
        match h !! l with
        | Some (ODict items) => (Ok tt, <[l := ODict (<[k := v]> items)]> h)
        | _ => (Raise TypeError, h)
        end
    | _ => (Raise TypeError, h)
    end.

(** [assert b] *)
Definition py_assert (b : bool) : M unit :=
  if b then ret tt else raise AssertionError.

(** The value of an array: its shape and its elements, read off the store. *)
Definition array_value (h : heap) (a : value) : option (list nat * list elt) :=
  match a with
  | VRef l =>
      match h !! l with
      | Some (ONdarray s b) =>
          match h !! b with
          | Some (OBuffer cells) => Some (s, cells)
          | _ => None
          end
      | _ => None
      end
  | _ => None
  end.

(** ** Loading the volumes (the cell of lines 140-150)

    [sitk.GetArrayFromImage(sitk.ReadImage(...))] is file input done by
    SimpleITK; the two arrays it returns are the inputs here.  The closing
    [print] writes to the cell's output and leaves the store alone. *)

Variable float32 : elt -> elt.

Definition load_volumes (img_read mask_read : value) : M (value * value) :=
  img <- ndarray_astype float32 img_read ;;
  mask <- ndarray_astype float32 mask_read ;;
  mask_shape <- ndarray_shape mask ;;
  img_shape <- ndarray_shape img ;;
  py_assert (bool_decide (mask_shape = img_shape)) ;;;
  ret (img, mask).

(** ** CustomDataset (lines 216-226) *)

(** [AbstractDataset.__init__] belongs to [delira.data_loading], which the
    notebook only imports.  Called on a new instance with four [None]s it
    can only set attributes of that instance, so it is taken as an
    arbitrary update of the instance's attributes. *)
Variable AbstractDataset__init__ : gmap string value -> gmap string value.

Definition super__init__ (self : value) : M unit :=
  fun h =>
    match self with
    | VRef l =>
        match h !! l with
        | Some (OInstance attrs) =>
            (Ok tt, <[l := OInstance (AbstractDataset__init__ attrs)]> h)
        | _ => (Raise AttributeError, h)
        end
    | _ => (Raise AttributeError, h)
    end.

Definition num_samples_default : value := VInt 1000.

Definition __init__ (self img mask num_samples : value) : M unit :=
  super__init__ self ;;;
  ishape <- ndarray_shape img ;;
  d <- ndarray_reshape img (1 :: (Z.of_nat <$> ishape)) ;;
  mshape <- ndarray_shape mask ;;
  l <- ndarray_reshape mask (1 :: (Z.of_nat <$> mshape)) ;;
  data <- alloc (ODict (<["data"%string := d]> (<["label"%string := l]> ∅))) ;;
  setattr self "data" (VRef data) ;;;
  setattr self "num_samples" num_samples.

Definition __getitem__ (self index : value) : M value :=
  getattr self "data".

Definition __len__ (self : value) : M value :=
  getattr self "num_samples".

(** [CustomDataset(img, mask, num_samples=n)]: a new instance, initialised. *)
Definition CustomDataset (img mask num_samples : value) : M value :=
  self <- alloc (OInstance ∅) ;;
  __init__ (VRef self) img mask num_samples ;;;
  ret (VRef self).

End Store.

Arguments obj : clear implicits.
Arguments M : clear implicits.

(** ** Clients of a dataset

    The ways a holder of a dataset reaches its samples:
    [ds[index]], [ds[index][key] = v] and [ds[index][key]].  A trace is any
    interleaving of such accesses, by any number of clients, on the one
    store; an access that raises ends itself, not the trace. *)

Inductive access :=
| AGet (index : value)
| AWrite (index : value) (key : string) (v : value)
| ARead (index : value) (key : string).

Section Clients.

Context {elt : Type}.

Abbreviation heap := (gmap loc (obj elt)).

Definition run_access (ds : value) (a : access) : M elt value :=
  match a with
  | AGet index => __getitem__ ds index
  | AWrite index key v =>
      bind (__getitem__ ds index) (fun s =>
      bind (dict_setitem s key v) (fun _ => ret VNone))
  | ARead index key =>
      bind (__getitem__ ds index) (fun s => dict_getitem s key)
  end.

Fixpoint run_trace (ds : value) (t : list access) (h : heap)
  : list (result value) * heap :=
  match t with
  | [] => ([], h)
  | a :: t' =>
      let (r, h1) := run_access ds a h in
      let (rs, h2) := run_trace ds t' h1 in
      (r :: rs, h2)
  end.

(** Whether an access assigns to [key]. *)
Definition writes_key (key : string) (a : access) : bool :=
  match a with
  | AWrite _ k _ => bool_decide (k = key)
  | _ => false
  end.

(** The builtin [len(ds)]: calls [__len__] and insists on an integer
    ([TypeError]) that is not negative ([ValueError]) and fits the index
    type ([OverflowError] above [sys.maxsize]). *)
Definition py_len (ds : value) : M elt nat :=
  bind (__len__ ds) (fun v =>
    match v with
    | VInt n =>
        if decide (n < 0) then raise ValueError
        else if decide (sys_maxsize < n) then raise OverflowError
        else ret (Z.to_nat n)
    | _ => raise TypeError
    end).

(** ** Predicates on stores *)

(** [stored h self n d ad al]: in [h] the instance [self] has [n] as its
    [num_samples] and the dict [d] as its [data], and [d] maps ["data"] and
    ["label"] to the arrays [ad] and [al]. *)
Definition stored (h : heap) (self : loc) (n : value) (d ad al : loc) : Prop :=
  (exists attrs,
      h !! self = Some (OInstance attrs) /\
      attrs !! "data"%string = Some (VRef d) /\
      attrs !! "num_samples"%string = Some n) /\
  h !! d = Some (ODict (<["data"%string := VRef ad]>
                         (<["label"%string := VRef al]> ∅))).

(** [shares h self d]: the instance [self] has the dict [d] as its [data]. *)
Definition shares (h : heap) (self d : loc) : Prop :=
  (exists attrs,
      h !! self = Some (OInstance attrs) /\
      attrs !! "data"%string = Some (VRef d)) /\
  exists items, h !! d = Some (ODict items).

End Clients.

(** ** The transform pipeline (lines 265-269) *)

(** The stages the notebook declares, with the arguments it passes. *)
Inductive transform (elt : Type) :=
| RandomCropTransform (crop_size : nat * nat) (label_key : string)
| ResizeTransform (target_size : nat * nat) (label_key : string)
| ContrastAugmentationTransform
| MeanStdNormalizationTransform (mean std : list elt).

Arguments RandomCropTransform {elt} crop_size label_key.
Arguments ResizeTransform {elt} target_size label_key.
Arguments ContrastAugmentationTransform {elt}.
Arguments MeanStdNormalizationTransform {elt} mean std.

(** [transforms = Compose([...])]; [mean] and [std] stand for
    [img_slice.mean()] and [img_slice.std()]. *)
Definition transforms {elt} (mean std : elt) : list (transform elt) :=
  [ RandomCropTransform (150, 150)%nat "label";
    ResizeTransform (224, 224)%nat "label";
    ContrastAugmentationTransform;
    MeanStdNormalizationTransform [mean] [std] ].

Section Pipeline.

Context {elt : Type}.

(** A channel is a list of rows; an array of a sample is a list of channels
    (channel, row, column). *)
Abbreviation plane := (list (list elt)).
Abbreviation tensor := (list (list (list elt))).
Abbreviation sample := (gmap string (list (list (list elt)))).

(** The source of randomness of the randomized stages, as a tape of draws. *)
Abbreviation rand := (list nat).

Definition draw (r : rand) : nat * rand :=
  match r with
  | x :: r' => (x, r')
  | [] => (0%nat, [])
  end.

Definition spatial_size (t : tensor) : option (nat * nat) :=
  match t with
  | p :: _ => Some (length p, match p with r :: _ => length r | [] => 0%nat end)
  | [] => None
  end.

(** Every channel of [t] has [h] rows of [w] columns. *)
Definition has_size (h w : nat) (t : tensor) : bool :=
  forallb (fun p : plane =>
             Nat.eqb (length p) h && forallb (fun r => Nat.eqb (length r) w) p) t.

(** [has_size] as a proposition. *)
Definition sized (h w : nat) (t : tensor) : Prop :=
  Forall (fun p : plane => length p = h /\ Forall (fun r => length r = w) p) t.


(** Modelled from the spec: the window a crop of batchgenerators (absent
    from the notebook) cuts out of one channel: [ch] rows from row [oy],
    [cw] columns from column [ox]. *)
Definition crop_plane (oy ox ch cw : nat) (p : plane) : plane :=
  map (fun r => take cw (drop ox r)) (take ch (drop oy p)).

(** Modelled from the spec: the crop of batchgenerators (absent from the
    notebook) on an array: the same window out of every channel. *)
Definition crop_tensor (oy ox ch cw : nat) (t : tensor) : tensor :=
  map (crop_plane oy ox ch cw) t.

(** What the spec leaves open: how a resized pixel is computed from the
    source plane (for the image and for the label), how contrast maps a
    pixel given the drawn factor and the image, and the arithmetic of
    [(x - mean) / std]. *)
Variable resample : plane -> nat * nat -> nat -> nat -> elt.
Variable resample_label : plane -> nat * nat -> nat -> nat -> elt.
Variable contrast : nat -> tensor -> elt -> elt.
Variable standardize : elt -> elt -> elt -> elt.

(** Modelled from the spec: the resize of batchgenerators (absent from
    the notebook) on one channel: a plane of the target size, each pixel
    computed by the resampling kernel from the source plane. *)
Definition resize_plane (kernel : plane -> nat * nat -> nat -> nat -> elt)
  (target : nat * nat) (p : plane) : plane :=
  map (fun i => map (fun j => kernel p target i j) (seq 0 (snd target)))
    (seq 0 (fst target)).

(** Modelled from the spec: the resize of batchgenerators (absent from
    the notebook) on an array: every channel resized. *)
Definition resize_tensor (kernel : plane -> nat * nat -> nat -> nat -> elt)
  (target : nat * nat) (t : tensor) : tensor :=
  map (resize_plane kernel target) t.

(** Modelled from the spec: a pixel-wise stage of batchgenerators (absent
    from the notebook): [f] on every pixel of every channel. *)
Definition map_pixels (f : elt -> elt) (t : tensor) : tensor :=
  map (map (map f)) t.

(** Modelled from the spec: the normalisation of batchgenerators (absent
    from the notebook): channel by channel with the mean and the standard
    deviation supplied for it; no result when one is missing. *)
Fixpoint normalize_channels (mean std : list elt) (t : tensor) : option tensor :=
  match t, mean, std with
  | [], _, _ => Some []
  | p :: t', m :: mean', s :: std' =>
      t'' ← normalize_channels mean' std' t';
      Some (map (map (standardize m s)) p :: t'')
  | _, _, _ => None
  end.

(** Modelled from the spec: the stages are batchgenerators transforms, which
    the notebook only imports.  Per the spec: (a) a random crop to the
    given size, the one drawn window cutting the image and, through the
    label key, the label; it asks for a crop size within the input size;
    (b) a deterministic resize to the target size; (c) a randomized contrast
    change of the image only; (d) subtracting the supplied mean and dividing
    by the supplied standard deviation, on the image.  Outside what the spec
    fixes (crop larger than the input, no image in the sample, fewer means
    than channels) a stage has no result. *)
Definition apply (t : transform elt) (s : sample) (r : rand)
  : option (sample * rand) :=
  match t with
  | RandomCropTransform (ch, cw) label_key =>
      img ← s !! "data";
      '(h, w) ← spatial_size img;
      if decide (ch <= h /\ cw <= w)%nat then
        let (a, r1) := draw r in
        let (b, r2) := draw r1 in
        let crop := crop_tensor (a mod (h - ch + 1)) (b mod (w - cw + 1)) ch cw in
        let s1 := <["data" := crop img]> s in
        Some (match s !! label_key with
              | Some lbl => <[label_key := crop lbl]> s1
              | None => s1
              end, r2)
      else None
  | ResizeTransform target label_key =>
      img ← s !! "data";
      let s1 := <["data" := resize_tensor resample target img]> s in
      Some (match s !! label_key with
            | Some lbl => <[label_key := resize_tensor resample_label target lbl]> s1
            | None => s1
            end, r)
  | ContrastAugmentationTransform =>
      img ← s !! "data";
      let (factor, r1) := draw r in
      Some (<["data" := map_pixels (contrast factor img) img]> s, r1)
  | MeanStdNormalizationTransform mean std =>
      img ← s !! "data";
      img' ← normalize_channels mean std img;
      Some (<["data" := img']> s, r)
  end.

(** Modelled from the spec: [Compose] is batchgenerators'; per the spec the
    stages are applied in their declared sequence, each to the sample the
    one before produced. *)
Fixpoint Compose (ts : list (transform elt)) (s : sample) (r : rand)
  : option (sample * rand) :=
  match ts with
  | [] => Some (s, r)
  | t :: ts' => '(s1, r1) ← apply t s r; Compose ts' s1 r1
  end.

End Pipeline.

(** ** The data manager (lines 287-295) *)

(** [BaseDataManager], [SequentialSampler] and [RandomSampler] are delira's
    [data_loading] package, which the notebook only imports: everything in
    this part up to the two managers is written from the spec's sections 3
    and 4.3 and its end-to-end scenario, not from code. *)

(** Modelled from the spec: the sampling strategies of delira's
    [data_loading], absent from the notebook; the spec names a random and a
    sequential one. *)
Inductive sampler_cls :=
| RandomSampler
| SequentialSampler.

(** Modelled from the spec: delira's [BaseDataManager], absent from the
    notebook; per the spec it owns a dataset, a batch size, a transform
    pipeline, a sampling strategy and a worker count. *)
Record BaseDataManager (elt : Type) := {
  dataset : value;
  batch_size : nat;
  stages : list (transform elt);
  sampler : sampler_cls;
  n_process_augmentation : nat
}.

Arguments dataset {elt} _.
Arguments batch_size {elt} _.
Arguments stages {elt} _.
Arguments sampler {elt} _.
Arguments n_process_augmentation {elt} _.

(** Modelled from the spec: the index order of delira's samplers, absent
    from the notebook; per the spec sequential sampling yields the indices
    in ascending order and random sampling a shuffle of them without
    replacement, drawn anew for each pass ([shuffle]). *)
Definition sample_order (shuffle : list nat -> list nat)
  (s : sampler_cls) (n : nat) : list nat :=
  match s with
  | SequentialSampler => seq 0 n
  | RandomSampler => shuffle (seq 0 n)
  end.

(** Modelled from the spec: the batching of delira's data manager, absent
    from the notebook; per the spec's scenario (ten samples in batches of
    four make three batches, the last of two) the index order is cut into
    consecutive batches of [b], the last one holding what remains.  At most
    [fuel] batches are cut. *)
Fixpoint chunks_upto {A} (fuel : nat) (b : nat) (l : list A) : list (list A) :=
  match fuel with
  | O => []
  | S fuel' =>
      match l with
      | [] => []
      | _ => take b l :: chunks_upto fuel' b (drop b l)
      end
  end.

(** Modelled from the spec: the batching of delira's data manager, as
    [chunks_upto] with fuel to spare: every batch takes at least one index
    when [0 < b], so [length l] rounds are enough. *)
Definition chunks {A} (b : nat) (l : list A) : list (list A) :=
  chunks_upto (length l) b l.

Section Manager.

Context {elt : Type}.

Variable shuffle : list nat -> list nat.

(** Modelled from the spec: the index batches of one pass of delira's data
    manager, absent from the notebook: the sampler's order over
    [len(dataset)] indices, cut into batches of the manager's batch
    size. *)
Definition batches (mgr : BaseDataManager elt) : M elt (list (list nat)) :=
  bind (py_len (dataset mgr)) (fun n =>
    ret (chunks (batch_size mgr) (sample_order shuffle (sampler mgr) n))).

(** Modelled from the spec: how delira's data manager, absent from the
    notebook, fills one batch: the samples of its indices, fetched in order
    through the dataset's [__getitem__]. *)
Fixpoint fetch (ds : value) (idx : list nat) : M elt (list value) :=
  match idx with
  | [] => ret []
  | i :: idx' =>
      bind (__getitem__ ds (VInt (Z.of_nat i))) (fun s =>
      bind (fetch ds idx') (fun ss => ret (s :: ss)))
  end.

(** Modelled from the spec: the batches of delira's data manager, absent
    from the notebook, filled one after the other. *)
Fixpoint fetch_batches (ds : value) (bs : list (list nat))
  : M elt (list (list value)) :=
  match bs with
  | [] => ret []
  | b :: bs' =>
      bind (fetch ds b) (fun ss =>
      bind (fetch_batches ds bs') (fun sss => ret (ss :: sss)))
  end.

(** Modelled from the spec: one pass of delira's data manager, absent from
    the notebook: the sequence of its batches, each holding the samples
    fetched for its indices.  (Transforming the fetched samples is the
    pipeline's part, above; collating them is left out.) *)
Definition one_pass (mgr : BaseDataManager elt) : M elt (list (list value)) :=
  bind (batches mgr) (fun bs => fetch_batches (dataset mgr) bs).

(** The notebook's two datasets (lines 242-243) and managers (lines
    287-295); [params.nested_get("batch_size")] is the 64 of the parameters
    cell. *)
Variable base_init : gmap string value -> gmap string value.

Definition dataset_train (img_slice mask_slice : value) : M elt value :=
  CustomDataset base_init img_slice mask_slice (VInt 10000).

Definition dataset_val (img_slice mask_slice : value) : M elt value :=
  CustomDataset base_init img_slice mask_slice (VInt 1).

Definition manager_train (ds : value) (mean std : elt) : BaseDataManager elt :=
  {| dataset := ds; batch_size := 64; stages := transforms mean std;
     sampler := RandomSampler; n_process_augmentation := 4 |}.

Definition manager_val (ds : value) (mean std : elt) : BaseDataManager elt :=
  {| dataset := ds; batch_size := 64; stages := transforms mean std;
     sampler := SequentialSampler; n_process_augmentation := 4 |}.

End Manager.

(** ** Taking the slice (lines 187-188)

    [a[:, :, k]], as the value of the expression: its shape and its
    elements in row-major order.  (numpy returns a view into [a]; which
    storage the result addresses is not part of this value.)  The index
    counts from the end when negative; with fewer than three axes, or an
    index outside the third axis, numpy raises [IndexError]. *)

Definition wrap_index (k : Z) (d : nat) : option nat :=
  if decide (0 <= k < Z.of_nat d) then Some (Z.to_nat k)
  else if decide (- Z.of_nat d <= k < 0) then Some (Z.to_nat (k + Z.of_nat d))
  else None.

Definition getitem_axis2 {elt} (a : list nat * list elt) (k : Z)
  : result (list nat * list elt) :=
  match a.1 with
  | d0 :: d1 :: d2 :: rest =>
      match wrap_index k d2 with
      | Some k' =>
          let r := shape_size rest in
          Ok (d0 :: d1 :: rest,
              concat (map (fun q => take r (drop ((q * d2 + k') * r) a.2))
                        (seq 0 (d0 * d1))))
      | None => Raise IndexError
      end
  | _ => Raise IndexError
  end.

(** The slice the notebook takes. *)
Definition slice_index : Z := 100.

Definition img_slice {elt} (img : list nat * list elt)
  : result (list nat * list elt) :=
  getitem_axis2 img slice_index.

(** The storage an array addresses. *)
Definition buffer_of {elt} (h : gmap loc (obj elt)) (a : value) : option loc :=
  match a with
  | VRef l =>
      match h !! l with
      | Some (ONdarray _ b) => Some b
      | _ => None
      end
  | _ => None
  end.

(** [v] is [None], an integer or a dict of [h]: objects that have neither
    [reshape] nor [shape]. *)
Definition lacks_reshape {elt} (h : gmap loc (obj elt)) (v : value) : bool :=
  match v with
  | VRef l =>
      match h !! l with
      | Some (ODict _) => true
      | _ => false
      end
  | _ => true
  end.

(** [vars(obj)]: the attributes an instance holds itself. *)
Definition instance_dict {elt} (h : gmap loc (obj elt)) (v : value)
  : option (gmap string value) :=
  match v with
  | VRef l =>
      match h !! l with
      | Some (OInstance attrs) => Some attrs
      | _ => None
      end
  | _ => None
  end.

(** ** Sample inputs

    A store holding a 2 x 3 image and a 2 x 3 label, each with storage of
    its own, and a 2 x 2 array; a base-class initialiser that sets one
    attribute. *)

Definition store0 : gmap loc (obj Z) :=
  {[ 1%positive := OBuffer [10; 20; 30; 40; 50; 60];
     2%positive := ONdarray [2; 3]%nat 1%positive;
     3%positive := OBuffer [0; 0; 1; 1; 2; 3];
     4%positive := ONdarray [2; 3]%nat 3%positive;
     5%positive := OBuffer [7; 7; 7; 7];
     6%positive := ONdarray [2; 2]%nat 5%positive ]}.

Definition base0 (attrs : gmap string value) : gmap string value :=
  <["data_path"%string := VNone]> attrs.

Definition img0 : value := VRef 2%positive.
Definition mask0 : value := VRef 4%positive.
Definition other0 : value := VRef 6%positive.

(** The dataset of ten samples over [store0], and the store it leaves. *)
Definition ds0 : value := VRef 7%positive.
Definition store1 : gmap loc (obj Z) :=
  snd (CustomDataset base0 img0 mask0 (VInt 10) store0).

(** A 2 x 2 x 3 volume, as a value. *)
Definition volume0 : list nat * list Z :=
  ([2; 2; 3]%nat, [1; 2; 3; 4; 5; 6; 7; 8; 9; 10; 11; 12]).

(** Integer pixels, nearest-neighbour resampling, contrast as scaling by the
    drawn factor, and integer arithmetic for the normalisation. *)

Definition nearest (p : list (list Z)) (target : nat * nat) (i j : nat) : Z :=
  let h := length p in
  let row := nth (i * h / fst target) p [] in
  nth (j * length row / snd target) row 0.

Definition scale (factor : nat) (img : list (list (list Z))) (x : Z) : Z :=
  x * Z.of_nat factor.

Definition center (mean std x : Z) : Z := (x - mean) / std.

Definition tiny : gmap string (list (list (list Z))) :=
  {[ "data"%string := [[[1; 2; 3]; [4; 5; 6]; [7; 8; 9]]];
     "label"%string := [[[0; 0; 1]; [0; 1; 1]; [1; 1; 1]]] ]}.

(** A 160 x 170 image with its label. *)
Definition wide_img : list (list Z) := replicate 160 (replicate 170 5).
Definition wide_lbl : list (list (list Z)) := [replicate 160 (replicate 170 1)].
Definition wide : gmap string (list (list (list Z))) :=
  {[ "data"%string := [wide_img]; "label"%string := wide_lbl ]}.

(** * Properties *)

(** ** The store *)

Section StoreFacts.

Context {elt : Type}.

Abbreviation heap := (gmap loc (obj elt)).

Implicit Types (h : heap) (l : loc) (o : obj elt) (v : value).

Lemma fresh_unused h : h !! fresh (dom h) = None.
Proof. apply not_elem_of_dom, is_fresh. Qed.

Lemma lookup_alloc_old h l o o' :
  h !! l = Some o -> <[fresh (dom h) := o']> h !! l = Some o.
Proof.
  intros Hl. rewrite lookup_insert_ne; [done |].
  intros <-. rewrite fresh_unused in Hl. discriminate.
Qed.

Lemma lookup_alloc_new h o : <[fresh (dom h) := o]> h !! fresh (dom h) = Some o.
Proof. apply lookup_insert_eq. Qed.

Lemma bind_ok {A B} (c : M elt A) (k : A -> M elt B) h a h' :
  c h = (Ok a, h') -> bind c k h = k a h'.
Proof. unfold bind. intros ->. reflexivity. Qed.

Lemma bind_raise {A B} (c : M elt A) (k : A -> M elt B) h e h' :
  c h = (Raise e, h') -> bind c k h = (Raise e, h').
Proof. unfold bind. intros ->. reflexivity. Qed.

Lemma getattr_ok h l attrs name v :
  h !! l = Some (OInstance attrs) -> attrs !! name = Some v ->
  getattr (VRef l) name h = (Ok v, h).
Proof. unfold getattr. intros -> ->. reflexivity. Qed.

Lemma setattr_ok h l attrs name v :
  h !! l = Some (OInstance attrs) ->
  setattr (VRef l) name v h = (Ok tt, <[l := OInstance (<[name := v]> attrs)]> h).
Proof. unfold setattr. intros ->. reflexivity. Qed.

Lemma ndarray_shape_ok h l s b :
  h !! l = Some (ONdarray s b) -> ndarray_shape (VRef l) h = (Ok s, h).
Proof. unfold ndarray_shape. intros ->. reflexivity. Qed.

Lemma shape_size_cons (d : nat) (s : list nat) :
  shape_size (d :: s) = (d * shape_size s)%nat.
Proof. reflexivity. Qed.

(** Adding a leading axis of length one never changes the number of
    elements, so this reshape is always accepted. *)
Lemma resolve_shape_lead (s : list nat) :
  resolve_shape (shape_size s) (1 :: (Z.of_nat <$> s)) = Some (1%nat :: s).
Proof.
  unfold resolve_shape.
  assert (Hnn : Forall (fun d => 0 <= d) (1 :: (Z.of_nat <$> s))).
  { constructor; [lia |]. apply Forall_fmap, Forall_forall. intros x _. simpl. lia. }
  destruct (decide _) as [_ | Hn]; [| contradiction].
  assert (Hs : Z.to_nat <$> (1 :: (Z.of_nat <$> s)) = 1%nat :: s).
  { rewrite fmap_cons. f_equal. rewrite <- list_fmap_compose.
    rewrite <- (list_fmap_id s) at 2. apply list_fmap_ext.
    intros i x _. simpl. apply Nat2Z.id. }
  rewrite Hs. rewrite shape_size_cons, Nat.mul_1_l.
  destruct (decide _); [reflexivity | contradiction].
Qed.

Lemma ndarray_reshape_lead h l s b :
  h !! l = Some (ONdarray s b) ->
  ndarray_reshape (VRef l) (1 :: (Z.of_nat <$> s)) h
  = (Ok (VRef (fresh (dom h))), <[fresh (dom h) := ONdarray (1%nat :: s) b]> h).
Proof.
  unfold ndarray_reshape. intros ->. rewrite resolve_shape_lead. reflexivity.
Qed.

Variable float32 : elt -> elt.
Variable base_init : gmap string value -> gmap string value.

Lemma super__init___ok h l attrs :
  h !! l = Some (OInstance attrs) ->
  super__init__ base_init (VRef l) h
  = (Ok tt, <[l := OInstance (base_init attrs)]> h).
Proof. unfold super__init__. intros ->. reflexivity. Qed.

(** Construction from two arrays always succeeds; it allocates the
    instance, two views over the storage of the arguments and the sample
    dict, and leaves every object that existed before as it was. *)
Lemma CustomDataset_ok h li si bi lm sm bm n :
  h !! li = Some (ONdarray si bi) ->
  h !! lm = Some (ONdarray sm bm) ->
  exists self d ad al h',
    CustomDataset base_init (VRef li) (VRef lm) n h = (Ok (VRef self), h') /\
    h !! self = None /\
    stored h' self n d ad al /\
    h' !! ad = Some (ONdarray (1%nat :: si) bi) /\
    h' !! al = Some (ONdarray (1%nat :: sm) bm) /\
    (forall l o, h !! l = Some o -> h' !! l = Some o).
Proof.
  intros Hi Hm.
  set (self := fresh (dom h)).
  set (h1 := <[self := OInstance ∅]> h).
  set (h2 := <[self := OInstance (base_init ∅)]> h1).
  set (ad := fresh (dom h2)).
  set (h3 := <[ad := ONdarray (1%nat :: si) bi]> h2).
  set (al := fresh (dom h3)).
  set (h4 := <[al := ONdarray (1%nat :: sm) bm]> h3).
  set (d := fresh (dom h4)).
  set (items := <["data"%string := VRef ad]>
                  (<["label"%string := VRef al]> (∅ : gmap string value))).
  set (h5 := <[d := ODict items]> h4).
  set (a6 := <["data"%string := VRef d]> (base_init ∅)).
  set (h6 := <[self := OInstance a6]> h5).
  set (a7 := <["num_samples"%string := n]> a6).
  set (h7 := <[self := OInstance a7]> h6).
  assert (Hself : h !! self = None) by apply fresh_unused.
  assert (Hne : forall l o, h !! l = Some o -> l <> self).
  { intros l o Hl ->. rewrite Hself in Hl. discriminate. }
  assert (H2 : forall l o, h !! l = Some o -> h2 !! l = Some o).
  { intros l o Hl. unfold h2, h1.
    rewrite !lookup_insert_ne by (apply not_eq_sym; eauto). exact Hl. }
  assert (H2s : h2 !! self = Some (OInstance (base_init ∅))).
  { apply lookup_insert_eq. }
  assert (H3 : forall l o, h2 !! l = Some o -> h3 !! l = Some o).
  { intros l o Hl. apply lookup_alloc_old, Hl. }
  assert (H4 : forall l o, h3 !! l = Some o -> h4 !! l = Some o).
  { intros l o Hl. apply lookup_alloc_old, Hl. }
  assert (H5 : forall l o, h4 !! l = Some o -> h5 !! l = Some o).
  { intros l o Hl. apply lookup_alloc_old, Hl. }
  assert (H5s : h5 !! self = Some (OInstance (base_init ∅))) by auto.
  assert (H7 : forall l o, l <> self -> h5 !! l = Some o -> h7 !! l = Some o).
  { intros l o Hl Ho. unfold h7, h6.
    rewrite !lookup_insert_ne by (apply not_eq_sym; exact Hl). exact Ho. }
  assert (Had : h3 !! ad = Some (ONdarray (1%nat :: si) bi)) by apply lookup_alloc_new.
  assert (Hal : h4 !! al = Some (ONdarray (1%nat :: sm) bm)) by apply lookup_alloc_new.
  assert (Hd : h5 !! d = Some (ODict items)) by apply lookup_alloc_new.
  assert (Hkind : forall l o, h5 !! l = Some o ->
                    (forall a, o <> OInstance a) -> l <> self).
  { intros l o Hl Ho ->. rewrite H5s in Hl. inversion Hl. eapply Ho; eauto. }
  exists self, d, ad, al, h7.
  split; [| split; [exact Hself | split; [split | split; [| split]]]].
  - unfold CustomDataset.
    rewrite (bind_ok _ _ h self h1) by reflexivity. cbv beta.
    assert (Hinit : __init__ base_init (VRef self) (VRef li) (VRef lm) n h1
                    = (Ok tt, h7)).
    { unfold __init__.
      erewrite bind_ok; [| apply super__init___ok, lookup_insert_eq].
      fold h2. cbv beta.
      erewrite bind_ok; [| apply (ndarray_shape_ok h2 li si bi); auto].
      cbv beta.
      erewrite bind_ok; [| apply (ndarray_reshape_lead h2 li si bi); auto].
      fold ad h3. cbv beta.
      erewrite bind_ok; [| apply (ndarray_shape_ok h3 lm sm bm); auto].
      cbv beta.
      erewrite bind_ok; [| apply (ndarray_reshape_lead h3 lm sm bm); auto].
      fold al h4. cbv beta.
      erewrite bind_ok; [| reflexivity].
      fold d items h5. cbv beta.
      erewrite bind_ok; [| apply (setattr_ok h5 self _ _ _ H5s)].
      fold a6 h6. cbv beta.
      apply setattr_ok, lookup_insert_eq. }
    rewrite (bind_ok _ _ h1 tt h7 Hinit). reflexivity.
  - exists a7. split; [apply lookup_insert_eq |]. split.
    + unfold a7, a6. rewrite lookup_insert_ne by done. apply lookup_insert_eq.
    + apply lookup_insert_eq.
  - apply H7; [| exact Hd]. eapply Hkind; [exact Hd | discriminate].
  - apply H7; auto. eapply Hkind; [eauto | discriminate].
  - apply H7; auto. eapply Hkind; [eauto | discriminate].
  - intros l o Hl. apply H7; eauto.
Qed.

Lemma ndarray_shape_inv h a s h' :
  ndarray_shape a h = (Ok s, h') ->
  exists l b, a = VRef l /\ h !! l = Some (ONdarray s b).
Proof.
  unfold ndarray_shape. intros H.
  destruct a as [| |l]; try discriminate.
  destruct (h !! l) as [[| s' b | |] |] eqn:E; try discriminate.
  inversion H; subst. eauto.
Qed.

Lemma array_value_inv h a s cells :
  array_value h a = Some (s, cells) ->
  exists l b, a = VRef l /\ h !! l = Some (ONdarray s b) /\
              h !! b = Some (OBuffer cells).
Proof.
  unfold array_value. intros H.
  destruct a as [| |l]; try discriminate.
  destruct (h !! l) as [[| s' b | |] |] eqn:E; try discriminate.
  destruct (h !! b) as [[c | | |] |] eqn:Eb; try discriminate.
  inversion H; subst. eauto.
Qed.

Lemma array_value_intro h l s b cells :
  h !! l = Some (ONdarray s b) -> h !! b = Some (OBuffer cells) ->
  array_value h (VRef l) = Some (s, cells).
Proof. unfold array_value. intros -> ->. reflexivity. Qed.

Lemma getitem_stored h self n d ad al index :
  stored h self n d ad al ->
  __getitem__ (VRef self) index h = (Ok (VRef d), h).
Proof.
  intros [(attrs & Hs & Hd & _) _]. unfold __getitem__.
  eapply getattr_ok; eauto.
Qed.

Lemma len_stored h self n d ad al :
  stored h self n d ad al -> __len__ (VRef self) h = (Ok n, h).
Proof.
  intros [(attrs & Hs & _ & Hn) _]. unfold __len__.
  eapply getattr_ok; eauto.
Qed.

Lemma dict_getitem_stored h self n d ad al :
  stored h self n d ad al ->
  dict_getitem (VRef d) "data" h = (Ok (VRef ad), h) /\
  dict_getitem (VRef d) "label" h = (Ok (VRef al), h).
Proof.
  intros [_ Hd]. unfold dict_getitem. rewrite Hd. split; reflexivity.
Qed.

(** The constructor, from arguments that are arrays. *)
Lemma CustomDataset_arrays h img mask si sm n :
  ndarray_shape img h = (Ok si, h) ->
  ndarray_shape mask h = (Ok sm, h) ->
  exists li bi lm bm self d ad al h',
    img = VRef li /\ mask = VRef lm /\
    h !! li = Some (ONdarray si bi) /\ h !! lm = Some (ONdarray sm bm) /\
    CustomDataset base_init img mask n h = (Ok (VRef self), h') /\
    h !! self = None /\
    stored h' self n d ad al /\
    h' !! ad = Some (ONdarray (1%nat :: si) bi) /\
    h' !! al = Some (ONdarray (1%nat :: sm) bm) /\
    (forall l o, h !! l = Some o -> h' !! l = Some o).
Proof.
  intros (li & bi & -> & Hi)%ndarray_shape_inv (lm & bm & -> & Hm)%ndarray_shape_inv.
  destruct (CustomDataset_ok h li si bi lm sm bm n Hi Hm)
    as (self & d & ad & al & h' & H).
  exists li, bi, lm, bm, self, d, ad, al, h'. tauto.
Qed.

(** C3: a dataset constructed with [num_samples = n] answers [__len__]
    with exactly [n], for every integer [n] (negative ones included), and
    without touching the store. *)
Theorem len_is_num_samples h img mask si sm (n : Z) :
  ndarray_shape img h = (Ok si, h) ->
  ndarray_shape mask h = (Ok sm, h) ->
  exists ds h',
    CustomDataset base_init img mask (VInt n) h = (Ok ds, h') /\
    __len__ ds h' = (Ok (VInt n), h').
Proof.
  intros Hi Hm.
  destruct (CustomDataset_arrays h img mask si sm (VInt n) Hi Hm)
    as (li & bi & lm & bm & self & d & ad & al & h' & _ & _ & _ & _ & Hc & _ & Hst & _).
  exists (VRef self), h'. split; [exact Hc |].
  eapply len_stored, Hst.
Qed.

(** C9: [__getitem__] has no bounds check: on a constructed dataset it
    returns the stored sample dict, the value of [self.data], for every
    integer index, negative or beyond [num_samples] alike, and never
    raises. *)
Theorem getitem_total h img mask si sm (n : Z) :
  ndarray_shape img h = (Ok si, h) ->
  ndarray_shape mask h = (Ok sm, h) ->
  exists ds h' d items,
    CustomDataset base_init img mask (VInt n) h = (Ok ds, h') /\
    getattr ds "data" h' = (Ok (VRef d), h') /\
    h' !! d = Some (ODict items) /\
    forall index : Z, __getitem__ ds (VInt index) h' = (Ok (VRef d), h').
Proof.
  intros Hi Hm.
  destruct (CustomDataset_arrays h img mask si sm (VInt n) Hi Hm)
    as (li & bi & lm & bm & self & d & ad & al & h' & _ & _ & _ & _ & Hc & _ & Hst & _).
  exists (VRef self), h', d. eexists. split; [exact Hc |].
  split; [| split].
  - apply (getitem_stored h' self (VInt n) d ad al VNone Hst).
  - apply Hst.
  - intros index. eapply getitem_stored, Hst.
Qed.

(** C2, as the code has it: [__getitem__] never raises, whether the index
    lies in [0, length()) or outside it; for every index the call leaves
    the store as it found it. *)
Theorem getitem_never_raises h img mask si sm (n : Z) :
  ndarray_shape img h = (Ok si, h) ->
  ndarray_shape mask h = (Ok sm, h) ->
  exists ds h',
    CustomDataset base_init img mask (VInt n) h = (Ok ds, h') /\
    forall index : Z,
      (forall e h'', __getitem__ ds (VInt index) h' <> (Raise e, h'')) /\
      snd (__getitem__ ds (VInt index) h') = h'.
Proof.
  intros Hi Hm.
  destruct (CustomDataset_arrays h img mask si sm (VInt n) Hi Hm)
    as (li & bi & lm & bm & self & d & ad & al & h' & _ & _ & _ & _ & Hc & _ & Hst & _).
  exists (VRef self), h'. split; [exact Hc |].
  intros index.
  rewrite (getitem_stored h' self (VInt n) d ad al (VInt index) Hst).
  split; [intros e h'' H; discriminate | reflexivity].
Qed.

(** C1: for every valid index [0 <= i < length()], [__getitem__] returns
    the one stored sample, the same for all [i]: a dict whose ["data"] and
    ["label"] arrays carry the elements of the image and of the label given
    to the constructor (under the shape with the leading axis).  With
    [n = 10] this is the ten-sample scenario. *)
Theorem getitem_valid_returns_stored_sample h img mask si ci sm cm (n : Z) :
  array_value h img = Some (si, ci) ->
  array_value h mask = Some (sm, cm) ->
  exists ds h' sample a_img a_label,
    CustomDataset base_init img mask (VInt n) h = (Ok ds, h') /\
    __len__ ds h' = (Ok (VInt n), h') /\
    dict_getitem sample "data" h' = (Ok a_img, h') /\
    dict_getitem sample "label" h' = (Ok a_label, h') /\
    array_value h' a_img = Some (1%nat :: si, ci) /\
    array_value h' a_label = Some (1%nat :: sm, cm) /\
    forall i : Z, 0 <= i < n ->
      __getitem__ ds (VInt i) h' = (Ok sample, h').
Proof.
  intros (li & bi & -> & Hi & Hbi)%array_value_inv
         (lm & bm & -> & Hm & Hbm)%array_value_inv.
  destruct (CustomDataset_ok h li si bi lm sm bm (VInt n) Hi Hm)
    as (self & d & ad & al & h' & Hc & _ & Hst & Had & Hal & Hold).
  destruct (dict_getitem_stored h' self (VInt n) d ad al Hst) as [Hgd Hgl].
  exists (VRef self), h', (VRef d), (VRef ad), (VRef al).
  repeat split; try assumption.
  - eapply len_stored, Hst.
  - eapply array_value_intro; eauto.
  - eapply array_value_intro; eauto.
  - intros i _. eapply getitem_stored, Hst.
Qed.

(** C5: the sample the dataset stores holds the image and the label each
    under a leading axis of length one: for an image of shape [s] the
    stored array has shape [(1, *s)] (and addresses the storage of the
    image), likewise the label; every index is answered with this one
    sample. *)
Theorem stored_sample_has_channel_axis h img mask si sm (n : Z) :
  ndarray_shape img h = (Ok si, h) ->
  ndarray_shape mask h = (Ok sm, h) ->
  exists ds h' sample a_img a_label li bi lm bm,
    CustomDataset base_init img mask (VInt n) h = (Ok ds, h') /\
    dict_getitem sample "data" h' = (Ok (VRef a_img), h') /\
    dict_getitem sample "label" h' = (Ok (VRef a_label), h') /\
    img = VRef li /\ h' !! li = Some (ONdarray si bi) /\
    mask = VRef lm /\ h' !! lm = Some (ONdarray sm bm) /\
    h' !! a_img = Some (ONdarray (1%nat :: si) bi) /\
    h' !! a_label = Some (ONdarray (1%nat :: sm) bm) /\
    forall index : Z, __getitem__ ds (VInt index) h' = (Ok sample, h').
Proof.
  intros Hi Hm.
  destruct (CustomDataset_arrays h img mask si sm (VInt n) Hi Hm)
    as (li & bi & lm & bm & self & d & ad & al & h' & -> & -> & Hli & Hlm
        & Hc & _ & Hst & Had & Hal & Hold).
  destruct (dict_getitem_stored h' self (VInt n) d ad al Hst) as [Hgd Hgl].
  exists (VRef self), h', (VRef d), ad, al, li, bi, lm, bm.
  repeat split; auto.
  intros index. eapply getitem_stored, Hst.
Qed.

(** *** Sharing *)

Lemma stored_shares h self n d ad al : stored h self n d ad al -> shares h self d.
Proof. intros [(attrs & Hs & Hd & _) Hdict]. split; eauto. Qed.

Lemma shares_ne h self d : shares h self d -> d <> self.
Proof.
  intros [(attrs & Hs & _) (items & Hd)] ->. rewrite Hs in Hd. discriminate.
Qed.

Lemma shares_getitem h self d index :
  shares h self d -> __getitem__ (VRef self) index h = (Ok (VRef d), h).
Proof.
  intros [(attrs & Hs & Hd) _]. unfold __getitem__. eapply getattr_ok; eauto.
Qed.

Lemma run_access_write h self d items index k v :
  shares h self d -> h !! d = Some (ODict items) ->
  run_access (VRef self) (AWrite index k v) h
  = (Ok VNone, <[d := ODict (<[k := v]> items)]> h).
Proof.
  intros Hsh Hd. simpl.
  rewrite (bind_ok _ _ h (VRef d) h) by (apply shares_getitem; exact Hsh).
  unfold bind, dict_setitem. rewrite Hd. reflexivity.
Qed.

Lemma run_access_read h self d items index k :
  shares h self d -> h !! d = Some (ODict items) ->
  run_access (VRef self) (ARead index k) h
  = (match items !! k with Some v => Ok v | None => Raise KeyError end, h).
Proof.
  intros Hsh Hd. simpl.
  rewrite (bind_ok _ _ h (VRef d) h) by (apply shares_getitem; exact Hsh).
  unfold dict_getitem. rewrite Hd. destruct (items !! k); reflexivity.
Qed.

(** No access rebinds [self.data] or replaces the dict by another object. *)
Lemma run_access_shares h self d a :
  shares h self d -> shares (snd (run_access (VRef self) a h)) self d.
Proof.
  intros Hsh. destruct a as [index | index k v | index k].
  - unfold run_access. rewrite (shares_getitem h self d index Hsh). exact Hsh.
  - destruct Hsh as [(attrs & Hs & Hd) (items & Hi)].
    rewrite (run_access_write h self d items index k v); [| split; eauto | exact Hi].
    simpl. split.
    + exists attrs. split; [| exact Hd].
      rewrite lookup_insert_ne; [exact Hs |].
      intros ->. rewrite Hs in Hi. discriminate.
    + eexists. apply lookup_insert_eq.
  - destruct Hsh as [Hat (items & Hi)].
    rewrite (run_access_read h self d items index k); [| split; eauto | exact Hi].
    simpl. split; eauto.
Qed.

Lemma run_trace_cons ds a t h :
  snd (run_trace ds (a :: t) h) = snd (run_trace ds t (snd (run_access ds a h))).
Proof.
  simpl. destruct (run_access ds a h) as [r h1]. simpl.
  destruct (run_trace ds t h1). reflexivity.
Qed.

Lemma run_trace_app ds t1 t2 h :
  snd (run_trace ds (t1 ++ t2) h) = snd (run_trace ds t2 (snd (run_trace ds t1 h))).
Proof.
  revert h. induction t1 as [| a t1 IH]; intros h; [reflexivity |].
  rewrite <- app_comm_cons, !run_trace_cons. apply IH.
Qed.

Lemma run_trace_shares h self d t :
  shares h self d -> shares (snd (run_trace (VRef self) t h)) self d.
Proof.
  revert h. induction t as [| a t IH]; intros h Hsh; [exact Hsh |].
  rewrite run_trace_cons. apply IH, run_access_shares, Hsh.
Qed.

(** An item of the sample survives every access that does not assign to
    its key. *)
Lemma run_trace_keeps_item h self d items k v t :
  shares h self d -> h !! d = Some (ODict items) -> items !! k = Some v ->
  forallb (fun a => negb (writes_key k a)) t = true ->
  exists items',
    snd (run_trace (VRef self) t h) !! d = Some (ODict items') /\
    items' !! k = Some v.
Proof.
  revert h items. induction t as [| a t IH]; intros h items Hsh Hd Hk Hw.
  - exists items. split; assumption.
  - simpl in Hw. apply andb_prop in Hw as [Ha Ht].
    rewrite run_trace_cons.
    pose proof (run_access_shares h self d a Hsh) as Hsh'.
    destruct a as [index | index k' v' | index k'].
    + unfold run_access in *. rewrite (shares_getitem h self d index Hsh) in *.
      eapply IH; eauto.
    + rewrite (run_access_write h self d items index k' v' Hsh Hd) in *.
      simpl in Ha. apply negb_true_iff, bool_decide_eq_false in Ha.
      eapply IH; [exact Hsh' | apply lookup_insert_eq | | exact Ht].
      rewrite lookup_insert_ne by exact Ha. exact Hk.
    + rewrite (run_access_read h self d items index k' Hsh Hd) in *.
      eapply IH; eauto.
Qed.

(** C10: the samples are aliases of one dict.  [__getitem__] returns the
    same object for any two indices and in every interleaving of accesses;
    an assignment made through the sample of one index is read back through
    the sample of any other index, as long as no later access assigns to
    that key again; and whatever is done to the store short of rebinding
    the instance, every index still yields that one object. *)
Theorem getitem_aliases_one_dict h img mask si sm (n : Z) :
  ndarray_shape img h = (Ok si, h) ->
  ndarray_shape mask h = (Ok sm, h) ->
  exists self h' sample,
    CustomDataset base_init img mask (VInt n) h = (Ok (VRef self), h') /\
    (forall i j : Z,
        __getitem__ (VRef self) (VInt i) h' = (Ok sample, h') /\
        __getitem__ (VRef self) (VInt j) h' = (Ok sample, h')) /\
    (forall (t : list access) (index : value),
        fst (run_access (VRef self) (AGet index)
               (snd (run_trace (VRef self) t h'))) = Ok sample) /\
    (forall (pre mid : list access) (i j : value) (k : string) (v : value),
        forallb (fun a => negb (writes_key k a)) mid = true ->
        fst (run_access (VRef self) (ARead j k)
               (snd (run_trace (VRef self) (pre ++ AWrite i k v :: mid) h')))
        = Ok v) /\
    (forall (h'' : heap) (j : value),
        h'' !! self = h' !! self ->
        __getitem__ (VRef self) j h'' = (Ok sample, h'')).
Proof.
  intros Hi Hm.
  destruct (CustomDataset_arrays h img mask si sm (VInt n) Hi Hm)
    as (li & bi & lm & bm & self & d & ad & al & h' & _ & _ & _ & _ & Hc & _ & Hst & _).
  pose proof (stored_shares _ _ _ _ _ _ Hst) as Hsh.
  exists self, h', (VRef d). split; [exact Hc |].
  split; [| split; [| split]].
  - intros i j. split; apply shares_getitem, Hsh.
  - intros t index. unfold run_access.
    rewrite (shares_getitem _ self d index (run_trace_shares h' self d t Hsh)).
    reflexivity.
  - intros pre mid i j k v Hmid.
    rewrite run_trace_app, run_trace_cons.
    pose proof (run_trace_shares h' self d pre Hsh) as Hpre.
    set (h1 := snd (run_trace (VRef self) pre h')) in *.
    destruct Hpre as [Hat (items & Hd)].
    assert (Hsh1 : shares h1 self d) by (split; eauto).
    rewrite (run_access_write h1 self d items i k v Hsh1 Hd). simpl snd.
    set (h2 := <[d := ODict (<[k := v]> items)]> h1).
    assert (Hsh2 : shares h2 self d).
    { pose proof (run_access_shares h1 self d (AWrite i k v) Hsh1) as H.
      rewrite (run_access_write h1 self d items i k v Hsh1 Hd) in H. exact H. }
    destruct (run_trace_keeps_item h2 self d (<[k := v]> items) k v mid Hsh2)
      as (items' & Hd' & Hk'); [apply lookup_insert_eq | apply lookup_insert_eq | exact Hmid |].
    rewrite (run_access_read _ self d items' j k
               (run_trace_shares h2 self d mid Hsh2) Hd').
    rewrite Hk'. reflexivity.
  - intros h'' j Heq. destruct Hsh as [(attrs & Hs & Hd) _].
    unfold __getitem__. eapply getattr_ok; [| exact Hd].
    rewrite Heq. exact Hs.
Qed.

(** *** Loading *)

(** [astype] on an array: a new array of the same shape over new storage
    holding the converted elements; nothing that existed changes. *)
Lemma ndarray_astype_ok cast h a s cells :
  array_value h a = Some (s, cells) ->
  exists l' h',
    ndarray_astype cast a h = (Ok (VRef l'), h') /\
    array_value h' (VRef l') = Some (s, cast <$> cells) /\
    (forall l o, h !! l = Some o -> h' !! l = Some o).
Proof.
  intros (l & b & -> & Hl & Hb)%array_value_inv.
  set (b' := fresh (dom h)).
  set (h1 := <[b' := OBuffer (cast <$> cells)]> h).
  set (l' := fresh (dom h1)).
  set (h2 := <[l' := ONdarray s b']> h1).
  exists l', h2. split; [| split].
  - unfold ndarray_astype. rewrite Hl, Hb. reflexivity.
  - eapply array_value_intro; [apply lookup_alloc_new |].
    apply lookup_alloc_old, lookup_alloc_new.
  - intros l0 o Hl0. apply lookup_alloc_old, lookup_alloc_old, Hl0.
Qed.

Lemma array_value_mono h h' a s cells :
  (forall l o, h !! l = Some o -> h' !! l = Some o) ->
  array_value h a = Some (s, cells) -> array_value h' a = Some (s, cells).
Proof.
  intros Hold (l & b & -> & Hl & Hb)%array_value_inv.
  eapply array_value_intro; eauto.
Qed.

Lemma array_value_shape h a s cells :
  array_value h a = Some (s, cells) -> ndarray_shape a h = (Ok s, h).
Proof.
  intros (l & b & -> & Hl & Hb)%array_value_inv.
  eapply ndarray_shape_ok, Hl.
Qed.

(** C4: loading checks one thing, that the label volume has the shape of
    the image volume.  For any two arrays read from disk the cell ends in
    [AssertionError] exactly when the shapes differ, and then nothing
    placed after it runs; when they are equal it succeeds, whatever the
    elements are, with the two volumes converted element by element. *)
Theorem load_volumes_checks_shape_only h img_read mask_read si ci sm cm :
  array_value h img_read = Some (si, ci) ->
  array_value h mask_read = Some (sm, cm) ->
  exists img mask h',
    load_volumes float32 img_read mask_read h
    = (if decide (sm = si) then Ok (img, mask) else Raise AssertionError, h') /\
    array_value h' img = Some (si, float32 <$> ci) /\
    array_value h' mask = Some (sm, float32 <$> cm) /\
    forall (B : Type) (rest : value * value -> M elt B),
      sm <> si ->
      bind (load_volumes float32 img_read mask_read) rest h
      = (Raise AssertionError, h').
Proof.
  intros Hi Hm.
  destruct (ndarray_astype_ok float32 h img_read si ci Hi)
    as (l1 & h1 & E1 & V1 & Hold1).
  pose proof (array_value_mono h h1 mask_read sm cm Hold1 Hm) as Hm1.
  destruct (ndarray_astype_ok float32 h1 mask_read sm cm Hm1)
    as (l2 & h2 & E2 & V2 & Hold2).
  pose proof (array_value_mono h1 h2 _ _ _ Hold2 V1) as V1'.
  assert (E : load_volumes float32 img_read mask_read h
              = (if decide (sm = si) then Ok (VRef l1, VRef l2)
                 else Raise AssertionError, h2)).
  { unfold load_volumes.
    rewrite (bind_ok _ _ h (VRef l1) h1 E1). cbv beta.
    rewrite (bind_ok _ _ h1 (VRef l2) h2 E2). cbv beta.
    rewrite (bind_ok _ _ h2 sm h2) by (eapply array_value_shape, V2). cbv beta.
    rewrite (bind_ok _ _ h2 si h2) by (eapply array_value_shape, V1'). cbv beta.
    unfold bind, py_assert.
    destruct (decide (sm = si)) as [Heq | Hne].
    - rewrite bool_decide_eq_true_2 by exact Heq. reflexivity.
    - rewrite bool_decide_eq_false_2 by exact Hne. reflexivity. }
  exists (VRef l1), (VRef l2), h2.
  split; [exact E | split; [exact V1' | split; [exact V2 |]]].
  intros B rest Hne. unfold bind at 1. rewrite E.
  destruct (decide (sm = si)); [contradiction | reflexivity].
Qed.

End StoreFacts.

(** ** The data manager *)

Section ManagerFacts.

Context {elt : Type}.

Variable shuffle : list nat -> list nat.

Lemma chunks_upto_count {A} (fuel b : nat) (l : list A) :
  (0 < b)%nat -> (length l <= fuel)%nat ->
  length (chunks_upto fuel b l) = ((length l + b - 1) / b)%nat.
Proof.
  intros Hb. revert l. induction fuel as [| fuel IH]; intros l Hl.
  - destruct l; [| simpl in Hl; lia]. simpl.
    symmetry. apply Nat.div_small. lia.
  - destruct l as [| x l].
    + simpl. symmetry. apply Nat.div_small. lia.
    + cbn [chunks_upto length]. rewrite IH.
      2:{ rewrite length_drop. simpl in *. lia. }
      rewrite length_drop. cbn [length].
      set (n := length l) in *.
      destruct (le_lt_dec b (S n)) as [Hge | Hlt].
      * replace (S n + b - 1)%nat with ((S n - b + b - 1) + 1 * b)%nat by lia.
        rewrite Nat.div_add by lia. lia.
      * replace (S n - b)%nat with 0%nat by lia.
        rewrite (Nat.div_small (0 + b - 1) b) by lia.
        apply (Nat.div_unique _ b 1 n); lia.
Qed.

(** A pass has [ceil(n / b)] batches. *)
Lemma chunks_count {A} (b : nat) (l : list A) :
  (0 < b)%nat -> length (chunks b l) = ((length l + b - 1) / b)%nat.
Proof. intros Hb. apply chunks_upto_count; [exact Hb | lia]. Qed.

Lemma chunks_upto_concat {A} (fuel b : nat) (l : list A) :
  (0 < b)%nat -> (length l <= fuel)%nat -> concat (chunks_upto fuel b l) = l.
Proof.
  intros Hb. revert l. induction fuel as [| fuel IH]; intros l Hl.
  - destruct l; [reflexivity | simpl in Hl; lia].
  - destruct l as [| x l]; [reflexivity |].
    cbn [chunks_upto concat]. rewrite IH.
    + apply take_drop.
    + rewrite length_drop. simpl in *. lia.
Qed.

(** The batches, laid end to end, are the index order: nothing is dropped,
    repeated or reordered. *)
Lemma chunks_concat {A} (b : nat) (l : list A) :
  (0 < b)%nat -> concat (chunks b l) = l.
Proof. intros Hb. apply chunks_upto_concat; [exact Hb | lia]. Qed.




End ManagerFacts.

(** ** The transform pipeline *)

Section PipelineFacts.

Context {elt : Type}.

Variable resample : list (list elt) -> nat * nat -> nat -> nat -> elt.
Variable resample_label : list (list elt) -> nat * nat -> nat -> nat -> elt.
Variable contrast : nat -> list (list (list elt)) -> elt -> elt.
Variable standardize : elt -> elt -> elt -> elt.

Abbreviation plane := (list (list elt)).
Abbreviation tensor := (list (list (list elt))).
Abbreviation sample := (gmap string (list (list (list elt)))).

Local Open Scope nat_scope.

Lemma forallb_Forall {A} (f : A -> bool) (l : list A) :
  forallb f l = true <-> Forall (fun x => f x = true) l.
Proof.
  induction l as [| x l IH]; simpl.
  - split; [constructor | reflexivity].
  - rewrite andb_true_iff, IH, Forall_cons. reflexivity.
Qed.

Lemma has_size_sized h w (t : tensor) : has_size h w t = true <-> sized h w t.
Proof.
  unfold has_size, sized. rewrite forallb_Forall.
  apply Forall_iff. intros p.
  rewrite andb_true_iff, Nat.eqb_eq, forallb_Forall.
  apply and_iff_compat_l, Forall_iff. intros r. apply Nat.eqb_eq.
Qed.


Lemma sized_resize kernel (target : nat * nat) (t : tensor) :
  sized (fst target) (snd target) (resize_tensor kernel target t).
Proof.
  unfold sized, resize_tensor. apply Forall_map, Forall_forall. intros p _.
  unfold resize_plane. split.
  - rewrite length_map. apply length_seq.
  - apply Forall_map, Forall_forall. intros i _.
    rewrite length_map. apply length_seq.
Qed.

Lemma sized_map_pixels f h w (t : tensor) :
  sized h w t -> sized h w (map_pixels f t).
Proof.
  intros Ht. unfold sized, map_pixels. apply Forall_map.
  eapply Forall_impl; [exact Ht |]. intros p [Hp Hrows]. split.
  - rewrite length_map. exact Hp.
  - apply Forall_map. eapply Forall_impl; [exact Hrows |].
    intros r Hr. simpl. rewrite length_map. exact Hr.
Qed.

Lemma spatial_size_sized h w (p : plane) (t : tensor) :
  0 < h -> sized h w (p :: t) -> spatial_size (p :: t) = Some (h, w).
Proof.
  intros Hh Ht. apply Forall_cons in Ht as [[Hp Hrows] _].
  simpl. destruct p as [| r p]; [simpl in Hp; lia |].
  apply Forall_cons in Hrows as [Hr _]. rewrite Hp, Hr. reflexivity.
Qed.

(** The stages compose left to right. *)
Lemma Compose_app (ts1 ts2 : list (transform elt)) (s : sample) r :
  Compose resample resample_label contrast standardize (ts1 ++ ts2) s r
  = '(s1, r1) ← Compose resample resample_label contrast standardize ts1 s r;
    Compose resample resample_label contrast standardize ts2 s1 r1.
Proof.
  revert s r. induction ts1 as [| t ts1 IH]; intros s r; [reflexivity |].
  simpl. destruct (apply _ _ _ _ t s r) as [[s1 r1] |]; [apply IH | reflexivity].
Qed.

Abbreviation run := (apply resample resample_label contrast standardize).
Abbreviation pipeline := (Compose resample resample_label contrast standardize).

Lemma lookup_both (s : sample) (a b : tensor) :
  <["label"%string := b]> (<["data"%string := a]> s) !! "data"%string = Some a /\
  <["label"%string := b]> (<["data"%string := a]> s) !! "label"%string = Some b.
Proof.
  split.
  - rewrite lookup_insert_ne by done. apply lookup_insert_eq.
  - apply lookup_insert_eq.
Qed.


Lemma run_crop (s : sample) r img lbl h w ch cw :
  s !! "data"%string = Some img -> s !! "label"%string = Some lbl ->
  spatial_size img = Some (h, w) -> ch <= h -> cw <= w ->
  run (RandomCropTransform (ch, cw) "label") s r
  = Some (<["label"%string :=
             crop_tensor (fst (draw r) mod (h - ch + 1))
               (fst (draw (snd (draw r))) mod (w - cw + 1)) ch cw lbl]>
            (<["data"%string :=
                 crop_tensor (fst (draw r) mod (h - ch + 1))
                   (fst (draw (snd (draw r))) mod (w - cw + 1)) ch cw img]> s),
          snd (draw (snd (draw r)))).
Proof.
  intros Hd Hl Hsz Hh Hw. unfold apply. rewrite Hd. simpl. rewrite Hsz. simpl.
  destruct (decide (ch <= h /\ cw <= w)) as [_ | Hn]; [| tauto].
  destruct (draw r) as [a r1]. cbn [fst snd].
  destruct (draw r1) as [b r2]. cbn [fst snd].
  rewrite Hl. reflexivity.
Qed.

Lemma run_resize (s : sample) r img lbl target :
  s !! "data"%string = Some img -> s !! "label"%string = Some lbl ->
  run (ResizeTransform target "label") s r
  = Some (<["label"%string := resize_tensor resample_label target lbl]>
            (<["data"%string := resize_tensor resample target img]> s), r).
Proof. intros Hd Hl. unfold apply. rewrite Hd. simpl. rewrite Hl. reflexivity. Qed.

Lemma run_contrast (s : sample) r img :
  s !! "data"%string = Some img ->
  run ContrastAugmentationTransform s r
  = Some (<["data"%string := map_pixels (contrast (fst (draw r)) img) img]> s,
          snd (draw r)).
Proof.
  intros Hd. unfold apply. rewrite Hd. simpl. destruct (draw r). reflexivity.
Qed.

Lemma run_normalize (s : sample) r (p : plane) mean std :
  s !! "data"%string = Some [p] ->
  run (MeanStdNormalizationTransform [mean] [std]) s r
  = Some (<["data"%string := map_pixels (standardize mean std) [p]]> s, r).
Proof. intros Hd. unfold apply. rewrite Hd. reflexivity. Qed.

Lemma Compose_step (t : transform elt) ts (s s1 : sample) r r1 :
  run t s r = Some (s1, r1) -> pipeline (t :: ts) s r = pipeline ts s1 r1.
Proof. intros H. cbn [Compose]. rewrite H. reflexivity. Qed.

(** *** Pixels *)





(** A non-empty array of channels of one size has that spatial size. *)
Lemma spatial_size_of_sized h w (t : tensor) :
  0 < h -> 0 < length t -> sized h w t -> spatial_size t = Some (h, w).
Proof.
  intros Hh Hn Ht. destruct t as [| p t]; [simpl in Hn; lia |].
  apply spatial_size_sized; assumption.
Qed.

Lemma length_crop_tensor oy ox ch cw (t : tensor) :
  length (crop_tensor oy ox ch cw t) = length t.
Proof. apply length_map. Qed.

Lemma length_resize_tensor kernel target (t : tensor) :
  length (resize_tensor kernel target t) = length t.
Proof. apply length_map. Qed.


(** C7: whatever the spatial size of the input sample, as long as it is at
    least the crop size 150 x 150, the pipeline produces a sample whose
    image and label both have the target spatial size 224 x 224: every
    channel has 224 rows of 224 columns, and the channels are as many as
    went in (one for the image).  (The draws [r] are arbitrary: two runs
    need not agree, and a second application need not reproduce the
    first.) *)
Theorem pipeline_output_has_target_size mean std
  (s : sample) (r : list nat) (img : plane) (lbl : tensor) h w :
  s !! "data"%string = Some [img] ->
  s !! "label"%string = Some lbl ->
  has_size h w [img] = true ->
  has_size h w lbl = true ->
  0 < length lbl ->
  150 <= h -> 150 <= w ->
  exists out r' img' lbl',
    pipeline (transforms mean std) s r = Some (out, r') /\
    out !! "data"%string = Some img' /\
    out !! "label"%string = Some lbl' /\
    has_size 224 224 img' = true /\
    has_size 224 224 lbl' = true /\
    spatial_size img' = Some (224, 224) /\
    spatial_size lbl' = Some (224, 224) /\
    length img' = 1 /\
    length lbl' = length lbl.
Proof.
  intros Hd Hl Hi%has_size_sized Hlb%has_size_sized Hnl Hh Hw.
  assert (Hsz : spatial_size [img] = Some (h, w)).
  { apply spatial_size_sized; [lia | exact Hi]. }
  pose proof (run_crop s r [img] lbl h w 150 150 Hd Hl Hsz Hh Hw) as E1.
  set (oy := fst (draw r) mod (h - 150 + 1)) in *.
  set (ox := fst (draw (snd (draw r))) mod (w - 150 + 1)) in *.
  set (r1 := snd (draw (snd (draw r)))) in *.
  set (img1 := crop_tensor oy ox 150 150 [img]) in *.
  set (lbl1 := crop_tensor oy ox 150 150 lbl) in *.
  set (s1 := <["label"%string := lbl1]> (<["data"%string := img1]> s)) in *.
  destruct (lookup_both s img1 lbl1) as [Hd1 Hl1]. fold s1 in Hd1, Hl1.
  pose proof (run_resize s1 r1 img1 lbl1 (224, 224) Hd1 Hl1) as E2.
  set (img2 := resize_tensor resample (224, 224) img1) in *.
  set (lbl2 := resize_tensor resample_label (224, 224) lbl1) in *.
  set (s2 := <["label"%string := lbl2]> (<["data"%string := img2]> s1)) in *.
  destruct (lookup_both s1 img2 lbl2) as [Hd2 Hl2]. fold s2 in Hd2, Hl2.
  pose proof (run_contrast s2 r1 img2 Hd2) as E3.
  set (img3 := map_pixels (contrast (fst (draw r1)) img2) img2) in *.
  set (s3 := <["data"%string := img3]> s2) in *.
  assert (Hd3 : s3 !! "data"%string = Some img3) by apply lookup_insert_eq.
  assert (Hl3 : s3 !! "label"%string = Some lbl2).
  { unfold s3. rewrite lookup_insert_ne by done. exact Hl2. }
  pose proof (run_normalize s3 (snd (draw r1))
                (map (map (contrast (fst (draw r1)) img2))
                   (resize_plane resample (224, 224)
                      (crop_plane oy ox 150 150 img)))
                mean std Hd3) as E4.
  assert (Z4 : sized 224 224 (map_pixels (standardize mean std) img3)).
  { apply (sized_map_pixels (standardize mean std) 224 224 img3).
    apply (sized_map_pixels (contrast (fst (draw r1)) img2) 224 224 img2).
    apply (sized_resize resample (224, 224) img1). }
  assert (Z2l : sized 224 224 lbl2)
    by apply (sized_resize resample_label (224, 224) lbl1).
  assert (N2l : length lbl2 = length lbl).
  { unfold lbl2. rewrite length_resize_tensor. apply length_crop_tensor. }
  exists (<["data"%string := map_pixels (standardize mean std) img3]> s3),
    (snd (draw r1)), (map_pixels (standardize mean std) img3), lbl2.
  repeat match goal with |- _ /\ _ => split end.
  - unfold transforms.
    rewrite (Compose_step _ _ _ _ _ _ E1), (Compose_step _ _ _ _ _ _ E2),
      (Compose_step _ _ _ _ _ _ E3), (Compose_step _ _ _ _ _ _ E4).
    reflexivity.
  - apply lookup_insert_eq.
  - rewrite lookup_insert_ne by done. exact Hl3.
  - apply has_size_sized, Z4.
  - apply has_size_sized, Z2l.
  - apply spatial_size_of_sized; [lia | simpl; lia | exact Z4].
  - apply spatial_size_of_sized; [lia | lia | exact Z2l].
  - reflexivity.
  - exact N2l.
Qed.

End PipelineFacts.

(** ** The constructor, in full *)

Section ConstructorFacts.

Context {elt : Type}.

Abbreviation heap := (gmap loc (obj elt)).

Implicit Types (h : heap) (l : loc) (o : obj elt) (v : value).

Variable base_init : gmap string value -> gmap string value.

Ltac solve_ne := first [assumption | apply not_eq_sym; assumption].

(** Everything the constructor does to the store: four allocations, at
    locations unused before and distinct from one another, and no other
    change. *)
Lemma CustomDataset_full h li si bi lm sm bm n :
  h !! li = Some (ONdarray si bi) ->
  h !! lm = Some (ONdarray sm bm) ->
  exists self d ad al h',
    CustomDataset base_init (VRef li) (VRef lm) n h = (Ok (VRef self), h') /\
    h !! self = None /\ h !! ad = None /\ h !! al = None /\ h !! d = None /\
    NoDup [self; ad; al; d] /\
    h' !! self = Some (OInstance (<["num_samples"%string := n]>
                                   (<["data"%string := VRef d]> (base_init ∅)))) /\
    h' !! ad = Some (ONdarray (1%nat :: si) bi) /\
    h' !! al = Some (ONdarray (1%nat :: sm) bm) /\
    h' !! d = Some (ODict (<["data"%string := VRef ad]>
                            (<["label"%string := VRef al]> ∅))) /\
    (forall l, l <> self -> l <> ad -> l <> al -> l <> d -> h' !! l = h !! l).
Proof.
  intros Hi Hm.
  set (self := fresh (dom h)).
  set (h1 := <[self := OInstance ∅]> h).
  set (h2 := <[self := OInstance (base_init ∅)]> h1).
  set (ad := fresh (dom h2)).
  set (h3 := <[ad := ONdarray (1%nat :: si) bi]> h2).
  set (al := fresh (dom h3)).
  set (h4 := <[al := ONdarray (1%nat :: sm) bm]> h3).
  set (d := fresh (dom h4)).
  set (items := <["data"%string := VRef ad]>
                  (<["label"%string := VRef al]> (∅ : gmap string value))).
  set (h5 := <[d := ODict items]> h4).
  set (a6 := <["data"%string := VRef d]> (base_init ∅)).
  set (h6 := <[self := OInstance a6]> h5).
  set (a7 := <["num_samples"%string := n]> a6).
  set (h7 := <[self := OInstance a7]> h6).
  assert (Hself : h !! self = None) by apply fresh_unused.
  assert (Had2 : h2 !! ad = None) by apply fresh_unused.
  assert (Hal3 : h3 !! al = None) by apply fresh_unused.
  assert (Hd4 : h4 !! d = None) by apply fresh_unused.
  assert (H2s : h2 !! self = Some (OInstance (base_init ∅))) by apply lookup_insert_eq.
  assert (Nas : ad <> self) by (intros E; rewrite E, H2s in Had2; discriminate).
  assert (H3s : h3 !! self = Some (OInstance (base_init ∅))).
  { unfold h3. rewrite lookup_insert_ne by exact Nas. exact H2s. }
  assert (H3a : h3 !! ad = Some (ONdarray (1%nat :: si) bi)) by apply lookup_insert_eq.
  assert (Nls : al <> self) by (intros E; rewrite E, H3s in Hal3; discriminate).
  assert (Nla : al <> ad) by (intros E; rewrite E, H3a in Hal3; discriminate).
  assert (H4s : h4 !! self = Some (OInstance (base_init ∅))).
  { unfold h4. rewrite lookup_insert_ne by exact Nls. exact H3s. }
  assert (H4a : h4 !! ad = Some (ONdarray (1%nat :: si) bi)).
  { unfold h4. rewrite lookup_insert_ne by exact Nla. exact H3a. }
  assert (H4l : h4 !! al = Some (ONdarray (1%nat :: sm) bm)) by apply lookup_insert_eq.
  assert (Nds : d <> self) by (intros E; rewrite E, H4s in Hd4; discriminate).
  assert (Nda : d <> ad) by (intros E; rewrite E, H4a in Hd4; discriminate).
  assert (Ndl : d <> al) by (intros E; rewrite E, H4l in Hd4; discriminate).
  assert (H5s : h5 !! self = Some (OInstance (base_init ∅))).
  { unfold h5. rewrite lookup_insert_ne by exact Nds. exact H4s. }
  assert (Hother : forall l, l <> self -> l <> ad -> l <> al -> l <> d ->
                             h7 !! l = h !! l).
  { intros l Ns Na Nl Nd. unfold h7, h6, h5, h4, h3, h2, h1.
    rewrite !lookup_insert_ne by solve_ne. reflexivity. }
  assert (Hli : li <> self) by (intros E; rewrite E, Hself in Hi; discriminate).
  assert (Hlm : lm <> self) by (intros E; rewrite E, Hself in Hm; discriminate).
  assert (H2i : h2 !! li = Some (ONdarray si bi)).
  { unfold h2, h1. rewrite !lookup_insert_ne by (apply not_eq_sym; exact Hli). exact Hi. }
  assert (H3m : h3 !! lm = Some (ONdarray sm bm)).
  { apply lookup_alloc_old. unfold h2, h1.
    rewrite !lookup_insert_ne by (apply not_eq_sym; exact Hlm). exact Hm. }
  exists self, d, ad, al, h7.
  repeat match goal with |- _ /\ _ => split end.
  - unfold CustomDataset.
    rewrite (bind_ok _ _ h self h1) by reflexivity. cbv beta.
    assert (Hinit : __init__ base_init (VRef self) (VRef li) (VRef lm) n h1
                    = (Ok tt, h7)).
    { unfold __init__.
      erewrite bind_ok; [| apply super__init___ok, lookup_insert_eq].
      fold h2. cbv beta.
      erewrite bind_ok; [| apply (ndarray_shape_ok h2 li si bi H2i)].
      cbv beta.
      erewrite bind_ok; [| apply (ndarray_reshape_lead h2 li si bi H2i)].
      fold ad h3. cbv beta.
      erewrite bind_ok; [| apply (ndarray_shape_ok h3 lm sm bm H3m)].
      cbv beta.
      erewrite bind_ok; [| apply (ndarray_reshape_lead h3 lm sm bm H3m)].
      fold al h4. cbv beta.
      erewrite bind_ok; [| reflexivity].
      fold d items h5. cbv beta.
      erewrite bind_ok; [| apply (setattr_ok h5 self _ _ _ H5s)].
      fold a6 h6. cbv beta.
      apply setattr_ok, lookup_insert_eq. }
    rewrite (bind_ok _ _ h1 tt h7 Hinit). reflexivity.
  - exact Hself.
  - destruct (h !! ad) eqn:E; [| reflexivity].
    assert (h2 !! ad = Some o); [| congruence].
    unfold h2, h1. rewrite !lookup_insert_ne by (apply not_eq_sym; exact Nas). exact E.
  - destruct (h !! al) eqn:E; [| reflexivity].
    assert (h3 !! al = Some o); [| congruence].
    unfold h3, h2, h1.
    rewrite !lookup_insert_ne by solve_ne. exact E.
  - destruct (h !! d) eqn:E; [| reflexivity].
    assert (h4 !! d = Some o); [| congruence].
    unfold h4, h3, h2, h1.
    rewrite !lookup_insert_ne by solve_ne. exact E.
  - rewrite !NoDup_cons, !not_elem_of_cons.
    repeat split; try solve_ne; try apply not_elem_of_nil. apply NoDup_nil_2.
  - apply lookup_insert_eq.
  - unfold h7, h6, h5. rewrite !lookup_insert_ne by solve_ne.
    exact H4a.
  - unfold h7, h6, h5. rewrite !lookup_insert_ne by solve_ne.
    exact H4l.
  - unfold h7, h6. rewrite !lookup_insert_ne by solve_ne.
    apply lookup_insert_eq.
  - exact Hother.
Qed.

(** The constructor on arguments given as arrays of the store. *)
Lemma CustomDataset_full_arrays h img mask si sm n :
  ndarray_shape img h = (Ok si, h) ->
  ndarray_shape mask h = (Ok sm, h) ->
  exists li bi lm bm self d ad al h',
    img = VRef li /\ mask = VRef lm /\
    h !! li = Some (ONdarray si bi) /\ h !! lm = Some (ONdarray sm bm) /\
    CustomDataset base_init img mask n h = (Ok (VRef self), h') /\
    h !! self = None /\ h !! ad = None /\ h !! al = None /\ h !! d = None /\
    NoDup [self; ad; al; d] /\
    h' !! self = Some (OInstance (<["num_samples"%string := n]>
                                   (<["data"%string := VRef d]> (base_init ∅)))) /\
    h' !! ad = Some (ONdarray (1%nat :: si) bi) /\
    h' !! al = Some (ONdarray (1%nat :: sm) bm) /\
    h' !! d = Some (ODict (<["data"%string := VRef ad]>
                            (<["label"%string := VRef al]> ∅))) /\
    (forall l, l <> self -> l <> ad -> l <> al -> l <> d -> h' !! l = h !! l).
Proof.
  intros (li & bi & -> & Hi)%ndarray_shape_inv (lm & bm & -> & Hm)%ndarray_shape_inv.
  destruct (CustomDataset_full h li si bi lm sm bm n Hi Hm)
    as (self & d & ad & al & h' & H).
  exists li, bi, lm, bm, self, d, ad, al, h'. tauto.
Qed.

Lemma frame_old h h' self ad al d :
  h !! self = None -> h !! ad = None -> h !! al = None -> h !! d = None ->
  (forall l, l <> self -> l <> ad -> l <> al -> l <> d -> h' !! l = h !! l) ->
  forall l o, h !! l = Some o -> h' !! l = Some o.
Proof.
  intros Hs Ha Hl Hd Hoth l o Ho. rewrite Hoth; [exact Ho | | | |];
    intros ->; congruence.
Qed.

(** X1: the constructor leaves its arguments, and everything else that
    existed, as they were: afterwards the image and the mask still have
    the shape and the elements they had (the reshape is not done in
    place), while the dataset instance, its sample dict and the two arrays
    the dict holds are objects that did not exist before, distinct from
    one another. *)
Theorem construction_leaves_arguments_untouched h img mask si ci sm cm n :
  array_value h img = Some (si, ci) ->
  array_value h mask = Some (sm, cm) ->
  exists self d ad al h',
    CustomDataset base_init img mask n h = (Ok (VRef self), h') /\
    (forall index, __getitem__ (VRef self) index h' = (Ok (VRef d), h')) /\
    dict_getitem (VRef d) "data" h' = (Ok (VRef ad), h') /\
    dict_getitem (VRef d) "label" h' = (Ok (VRef al), h') /\
    NoDup [self; ad; al; d] /\
    h !! self = None /\ h !! ad = None /\ h !! al = None /\ h !! d = None /\
    (forall l o, h !! l = Some o -> h' !! l = Some o) /\
    array_value h' img = Some (si, ci) /\
    array_value h' mask = Some (sm, cm) /\
    array_value h' (VRef ad) = Some (1%nat :: si, ci) /\
    array_value h' (VRef al) = Some (1%nat :: sm, cm).
Proof.
  intros Vi Vm.
  pose proof (array_value_shape h img si ci Vi) as Hi.
  pose proof (array_value_shape h mask sm cm Vm) as Hm.
  destruct (CustomDataset_full_arrays h img mask si sm n Hi Hm)
    as (li & bi & lm & bm & self & d & ad & al & h' & -> & -> & Hli & Hlm & Hc
        & Hs & Ha & Hl & Hd & Hnd & Hs' & Ha' & Hl' & Hd' & Hoth).
  pose proof (frame_old h h' self ad al d Hs Ha Hl Hd Hoth) as Hold.
  apply array_value_inv in Vi as (li' & bi' & Eli & Hli' & Hbi).
  apply array_value_inv in Vm as (lm' & bm' & Elm & Hlm' & Hbm).
  inversion Eli; subst li'. inversion Elm; subst lm'.
  rewrite Hli in Hli'. inversion Hli'; subst bi'.
  rewrite Hlm in Hlm'. inversion Hlm'; subst bm'.
  exists self, d, ad, al, h'.
  repeat match goal with |- _ /\ _ => split end; try assumption.
  - intros index. unfold __getitem__. eapply getattr_ok; [exact Hs' |].
    rewrite lookup_insert_ne by done. apply lookup_insert_eq.
  - unfold dict_getitem. rewrite Hd', lookup_insert_eq. reflexivity.
  - unfold dict_getitem. rewrite Hd'.
    rewrite lookup_insert_ne by done. rewrite lookup_insert_eq. reflexivity.
  - eapply array_value_intro; eauto.
  - eapply array_value_intro; eauto.
  - eapply array_value_intro; eauto.
  - eapply array_value_intro; eauto.
Qed.

(** X2: of the attributes the instance holds itself (its [__dict__]), the
    constructor sets [data] and [num_samples] and no other: every other
    name is held exactly as the base-class initialiser left it. *)
Theorem base_attributes_survive h img mask si sm n :
  ndarray_shape img h = (Ok si, h) ->
  ndarray_shape mask h = (Ok sm, h) ->
  exists ds h' attrs d,
    CustomDataset base_init img mask n h = (Ok ds, h') /\
    instance_dict h' ds = Some attrs /\
    attrs !! "data"%string = Some (VRef d) /\
    (forall index, __getitem__ ds index h' = (Ok (VRef d), h')) /\
    attrs !! "num_samples"%string = Some n /\
    forall name : string,
      name <> "data"%string -> name <> "num_samples"%string ->
      attrs !! name = base_init ∅ !! name.
Proof.
  intros Hi Hm.
  destruct (CustomDataset_full_arrays h img mask si sm n Hi Hm)
    as (li & bi & lm & bm & self & d & ad & al & h' & _ & _ & _ & _ & Hc
        & _ & _ & _ & _ & _ & Hs' & _).
  exists (VRef self), h'. eexists. exists d.
  split; [exact Hc |]. split; [unfold instance_dict; rewrite Hs'; reflexivity |].
  assert (Hdata : (<["num_samples"%string := n]>
                     (<["data"%string := VRef d]> (base_init ∅)))
                  !! "data"%string = Some (VRef d)).
  { rewrite lookup_insert_ne by done. apply lookup_insert_eq. }
  split; [exact Hdata |]. split.
  { intros index. unfold __getitem__. eapply getattr_ok; [exact Hs' | exact Hdata]. }
  split; [apply lookup_insert_eq |].
  intros name Hn1 Hn2.
  rewrite !lookup_insert_ne by (apply not_eq_sym; assumption). reflexivity.
Qed.

(** X4: the constructor does not validate [num_samples]: whatever object
    is passed is stored and returned by [__len__] as it is.  The builtin
    [len] is where a bad value surfaces: for an integer, [ValueError] when
    it is negative, [OverflowError] when it exceeds [sys.maxsize], the
    number itself otherwise; for [None], [TypeError]. *)
Theorem num_samples_is_not_validated h img mask si sm (n : value) :
  ndarray_shape img h = (Ok si, h) ->
  ndarray_shape mask h = (Ok sm, h) ->
  exists ds h',
    CustomDataset base_init img mask n h = (Ok ds, h') /\
    __len__ ds h' = (Ok n, h') /\
    (forall z : Z, n = VInt z ->
        py_len ds h'
        = (if decide (z < 0) then Raise ValueError
           else if decide (sys_maxsize < z) then Raise OverflowError
           else Ok (Z.to_nat z), h')) /\
    (n = VNone -> py_len ds h' = (Raise TypeError, h')).
Proof.
  intros Hi Hm.
  destruct (CustomDataset_full_arrays h img mask si sm n Hi Hm)
    as (li & bi & lm & bm & self & d & ad & al & h' & _ & _ & _ & _ & Hc
        & _ & _ & _ & _ & _ & Hs' & _).
  assert (Hlen : __len__ (VRef self) h' = (Ok n, h')).
  { unfold __len__. eapply getattr_ok; [exact Hs' | apply lookup_insert_eq]. }
  exists (VRef self), h'. split; [exact Hc |]. split; [exact Hlen |].
  unfold py_len. rewrite (bind_ok _ _ h' n h' Hlen). split.
  - intros z ->.
    destruct (decide (z < 0)); [reflexivity |].
    destruct (decide (sys_maxsize < z)); reflexivity.
  - intros ->. reflexivity.
Qed.

(** X5: the sample has the two keys ["data"] and ["label"] and no other:
    asking it for any other key (batchgenerators' default ["seg"], say)
    raises [KeyError], and for these two it does not. *)
Theorem sample_has_two_keys h img mask si sm n :
  ndarray_shape img h = (Ok si, h) ->
  ndarray_shape mask h = (Ok sm, h) ->
  exists ds h' sample,
    CustomDataset base_init img mask n h = (Ok ds, h') /\
    (forall index, __getitem__ ds index h' = (Ok sample, h')) /\
    forall k : string,
      dict_getitem sample k h' = (Raise KeyError, h')
      <-> (k <> "data"%string /\ k <> "label"%string).
Proof.
  intros Hi Hm.
  destruct (CustomDataset_full_arrays h img mask si sm n Hi Hm)
    as (li & bi & lm & bm & self & d & ad & al & h' & _ & _ & _ & _ & Hc
        & _ & _ & _ & _ & _ & Hs' & _ & _ & Hd' & _).
  exists (VRef self), h', (VRef d). split; [exact Hc |]. split.
  - intros index. unfold __getitem__. eapply getattr_ok; [exact Hs' |].
    rewrite lookup_insert_ne by done. apply lookup_insert_eq.
  - intros k. unfold dict_getitem. rewrite Hd'.
    destruct (decide (k = "data"%string)) as [-> | Nd].
    { rewrite lookup_insert_eq. split; [discriminate | tauto]. }
    rewrite lookup_insert_ne by (apply not_eq_sym; exact Nd).
    destruct (decide (k = "label"%string)) as [-> | Nl].
    { rewrite lookup_insert_eq. split; [discriminate | tauto]. }
    rewrite lookup_insert_ne by (apply not_eq_sym; exact Nl).
    rewrite lookup_empty. tauto.
Qed.

Lemma lacks_reshape_shape h v :
  lacks_reshape h v = true -> ndarray_shape v h = (Raise AttributeError, h).
Proof.
  unfold lacks_reshape, ndarray_shape. destruct v as [| z | l]; try reflexivity.
  destruct (h !! l) as [[| | |] |]; try reflexivity; discriminate.
Qed.

Lemma lacks_reshape_mono h h' v :
  (forall l o, h !! l = Some o -> h' !! l = Some o) ->
  lacks_reshape h v = true -> lacks_reshape h' v = true.
Proof.
  intros Hold. unfold lacks_reshape. destruct v as [| z | l]; try reflexivity.
  destruct (h !! l) as [o |] eqn:E; [| discriminate].
  rewrite (Hold l o E). tauto.
Qed.

(** X3: an image that is [None], an integer or a dict (or, with an image
    that is an array, such a mask) makes the constructor raise
    [AttributeError], at the [reshape]; no dataset is returned, and what
    existed in the store is unchanged. *)
Theorem construction_rejects_none_int_dict h img mask si n :
  lacks_reshape h img = true \/
  (ndarray_shape img h = (Ok si, h) /\ lacks_reshape h mask = true) ->
  exists h',
    CustomDataset base_init img mask n h = (Raise AttributeError, h') /\
    (forall l o, h !! l = Some o -> h' !! l = Some o).
Proof.
  intros Hcase.
  set (self := fresh (dom h)).
  set (h1 := <[self := OInstance ∅]> h).
  set (h2 := <[self := OInstance (base_init ∅)]> h1).
  assert (Hself : h !! self = None) by apply fresh_unused.
  assert (H2 : forall l o, h !! l = Some o -> h2 !! l = Some o).
  { intros l o Hl. unfold h2, h1.
    rewrite !lookup_insert_ne by (intros <-; congruence). exact Hl. }
  assert (Hsup : super__init__ base_init (VRef self) h1 = (Ok tt, h2)).
  { apply super__init___ok, lookup_insert_eq. }
  unfold CustomDataset.
  rewrite (bind_ok _ _ h self h1) by reflexivity. cbv beta.
  destruct Hcase as [Himg | [Himg Hmask]].
  - exists h2. split; [| exact H2].
    apply bind_raise. unfold __init__.
    rewrite (bind_ok _ _ h1 tt h2 Hsup).
    apply bind_raise, lacks_reshape_shape.
    apply (lacks_reshape_mono h h2 img H2 Himg).
  - apply ndarray_shape_inv in Himg as (li & bi & -> & Hi).
    set (ad := fresh (dom h2)).
    set (h3 := <[ad := ONdarray (1%nat :: si) bi]> h2).
    assert (H3 : forall l o, h !! l = Some o -> h3 !! l = Some o).
    { intros l o Hl. apply lookup_alloc_old, H2, Hl. }
    exists h3. split; [| exact H3].
    apply bind_raise. unfold __init__.
    rewrite (bind_ok _ _ h1 tt h2 Hsup).
    rewrite (bind_ok _ _ h2 si h2) by (apply (ndarray_shape_ok h2 li si bi), H2, Hi).
    rewrite (bind_ok _ _ h2 (VRef ad) h3)
      by (apply (ndarray_reshape_lead h2 li si bi), H2, Hi).
    apply bind_raise, lacks_reshape_shape.
    apply (lacks_reshape_mono h h3 mask H3 Hmask).
Qed.

(** *** Arrays over shared storage *)

Lemma ndarray_setflat_run h l s b cells (i : nat) (x : elt) :
  h !! l = Some (ONdarray s b) -> h !! b = Some (OBuffer cells) ->
  (i < length cells)%nat ->
  ndarray_setflat (VRef l) i x h
  = (Ok tt, <[b := OBuffer (<[i := x]> cells)]> h).
Proof.
  intros Hl Hb Hi. unfold ndarray_setflat. rewrite Hl, Hb.
  destruct (decide (i < length cells)%nat); [reflexivity | contradiction].
Qed.

(** An array over the written storage shows the new elements. *)
Lemma array_value_written h l s b cells cells' :
  h !! l = Some (ONdarray s b) -> h !! b = Some (OBuffer cells) ->
  array_value (<[b := OBuffer cells']> h) (VRef l) = Some (s, cells').
Proof.
  intros Hl Hb. unfold array_value.
  rewrite lookup_insert_ne by (intros <-; congruence).
  rewrite Hl, lookup_insert_eq. reflexivity.
Qed.

(** An array over other storage is unaffected. *)
Lemma array_value_unwritten h l s b0 cells0 b cells cells' :
  h !! l = Some (ONdarray s b0) -> h !! b0 = Some (OBuffer cells0) ->
  h !! b = Some (OBuffer cells) -> b0 <> b ->
  array_value (<[b := OBuffer cells']> h) (VRef l) = Some (s, cells0).
Proof.
  intros Hl Hb0 Hb Hne. unfold array_value.
  rewrite lookup_insert_ne by (intros <-; congruence).
  rewrite Hl, lookup_insert_ne by (apply not_eq_sym; exact Hne).
  rewrite Hb0. reflexivity.
Qed.

(** X6: the sample's image array is a view, not a copy, of the image given
    to the constructor: an element written through the constructor's
    argument is read through the sample of every index, and an element
    written through the sample is read through the argument. *)
Theorem sample_shares_storage_with_image
  h img mask si ci sm n (i : nat) (x : elt) :
  array_value h img = Some (si, ci) ->
  ndarray_shape mask h = (Ok sm, h) ->
  (i < length ci)%nat ->
  exists ds h' sample a_img h1,
    CustomDataset base_init img mask n h = (Ok ds, h') /\
    dict_getitem sample "data" h' = (Ok a_img, h') /\
    array_value h' a_img = Some (1%nat :: si, ci) /\
    ndarray_setflat img i x h' = (Ok tt, h1) /\
    (forall index, __getitem__ ds index h1 = (Ok sample, h1)) /\
    dict_getitem sample "data" h1 = (Ok a_img, h1) /\
    array_value h1 a_img = Some (1%nat :: si, <[i := x]> ci) /\
    ndarray_setflat a_img i x h' = (Ok tt, h1) /\
    array_value h1 img = Some (si, <[i := x]> ci).
Proof.
  intros (li & bi & -> & Hi & Hbi)%array_value_inv Hm Hlt.
  assert (Hsh : ndarray_shape (VRef li) h = (Ok si, h))
    by (eapply ndarray_shape_ok, Hi).
  destruct (CustomDataset_full_arrays h (VRef li) mask si sm n Hsh Hm)
    as (li' & bi' & lm & bm & self & d & ad & al & h' & Eli & _ & Hi' & _ & Hc
        & Hs & Ha & Hl & Hd & Hnd & Hs' & Ha' & Hl' & Hd' & Hoth).
  inversion Eli; subst li'. rewrite Hi in Hi'. inversion Hi'; subst bi'.
  pose proof (frame_old h h' self ad al d Hs Ha Hl Hd Hoth) as Hold.
  pose proof (Hold _ _ Hi) as Hli. pose proof (Hold _ _ Hbi) as Hb.
  set (h1 := <[bi := OBuffer (<[i := x]> ci)]> h').
  assert (Hk : forall l o, h' !! l = Some o -> (forall c, o <> OBuffer c) ->
                           h1 !! l = Some o).
  { intros l o Ho Hnb. unfold h1. rewrite lookup_insert_ne; [exact Ho |].
    intros <-. rewrite Hb in Ho. inversion Ho. eapply Hnb; eauto. }
  exists (VRef self), h', (VRef d), (VRef ad), h1.
  repeat match goal with |- _ /\ _ => split end.
  - exact Hc.
  - unfold dict_getitem. rewrite Hd', lookup_insert_eq. reflexivity.
  - eapply array_value_intro; eauto.
  - apply (ndarray_setflat_run h' li si bi ci i x Hli Hb Hlt).
  - intros index. unfold __getitem__. eapply getattr_ok.
    + apply Hk; [exact Hs' | discriminate].
    + rewrite lookup_insert_ne by done. apply lookup_insert_eq.
  - unfold dict_getitem. rewrite (Hk _ _ Hd') by discriminate.
    rewrite lookup_insert_eq. reflexivity.
  - apply (array_value_written h' ad (1%nat :: si) bi ci _ Ha' Hb).
  - apply (ndarray_setflat_run h' ad (1%nat :: si) bi ci i x Ha' Hb Hlt).
  - apply (array_value_written h' li si bi ci _ Hli Hb).
Qed.

(** X7: the training and the validation dataset of the notebook, built
    one after the other from the same slices, are two instances with two
    sample dicts and lengths 10000 and 1, but their image arrays hold the
    same elements over the same storage: an element written into the
    training sample is read in the validation sample. *)
Theorem train_and_val_share_storage
  h img_slice mask_slice si ci sm (i : nat) (x : elt) :
  array_value h img_slice = Some (si, ci) ->
  ndarray_shape mask_slice h = (Ok sm, h) ->
  (i < length ci)%nat ->
  exists tr va h2 s_tr s_va a_tr a_va h3,
    bind (dataset_train base_init img_slice mask_slice) (fun tr =>
      bind (dataset_val base_init img_slice mask_slice) (fun va =>
        ret (tr, va))) h = (Ok (tr, va), h2) /\
    tr <> va /\
    __len__ tr h2 = (Ok (VInt 10000), h2) /\
    __len__ va h2 = (Ok (VInt 1), h2) /\
    (forall index, __getitem__ tr index h2 = (Ok s_tr, h2)) /\
    (forall index, __getitem__ va index h2 = (Ok s_va, h2)) /\
    s_tr <> s_va /\
    dict_getitem s_tr "data" h2 = (Ok a_tr, h2) /\
    dict_getitem s_va "data" h2 = (Ok a_va, h2) /\
    a_tr <> a_va /\
    array_value h2 a_tr = Some (1%nat :: si, ci) /\
    array_value h2 a_va = Some (1%nat :: si, ci) /\
    ndarray_setflat a_tr i x h2 = (Ok tt, h3) /\
    array_value h3 a_va = Some (1%nat :: si, <[i := x]> ci).
Proof.
  intros (li & bi & -> & Hi & Hbi)%array_value_inv Hm Hlt.
  assert (Hsh : ndarray_shape (VRef li) h = (Ok si, h))
    by (eapply ndarray_shape_ok, Hi).
  destruct (CustomDataset_full_arrays h (VRef li) mask_slice si sm (VInt 10000) Hsh Hm)
    as (li' & bi' & lm & bm & s1 & d1 & ad1 & al1 & h1 & Eli & -> & Hi' & Hlm & Hc1
        & Hs1 & Ha1 & Hl1 & Hd1 & _ & Hs1' & Ha1' & Hl1' & Hd1' & Hoth1).
  inversion Eli; subst li'. rewrite Hi in Hi'. inversion Hi'; subst bi'.
  pose proof (frame_old h h1 s1 ad1 al1 d1 Hs1 Ha1 Hl1 Hd1 Hoth1) as Hold1.
  assert (Hsh1 : ndarray_shape (VRef li) h1 = (Ok si, h1))
    by (eapply ndarray_shape_ok, Hold1, Hi).
  assert (Hm1 : ndarray_shape (VRef lm) h1 = (Ok sm, h1))
    by (eapply ndarray_shape_ok, Hold1, Hlm).
  destruct (CustomDataset_full_arrays h1 (VRef li) (VRef lm) si sm (VInt 1) Hsh1 Hm1)
    as (li' & bi' & lm' & bm' & s2 & d2 & ad2 & al2 & h2 & Eli' & _ & Hi'' & _ & Hc2
        & Hs2 & Ha2 & Hl2 & Hd2 & _ & Hs2' & Ha2' & Hl2' & Hd2' & Hoth2).
  inversion Eli'; subst li'. rewrite (Hold1 _ _ Hi) in Hi''.
  inversion Hi''; subst bi'.
  pose proof (frame_old h1 h2 s2 ad2 al2 d2 Hs2 Ha2 Hl2 Hd2 Hoth2) as Hold2.
  pose proof (Hold2 _ _ Hs1') as Hs1''.
  pose proof (Hold2 _ _ Hd1') as Hd1''.
  pose proof (Hold2 _ _ Ha1') as Ha1''.
  pose proof (Hold2 _ _ (Hold1 _ _ Hbi)) as Hb.
  exists (VRef s1), (VRef s2), h2, (VRef d1), (VRef d2), (VRef ad1), (VRef ad2),
    (<[bi := OBuffer (<[i := x]> ci)]> h2).
  repeat match goal with |- _ /\ _ => split end.
  - unfold dataset_train, dataset_val.
    rewrite (bind_ok _ _ h (VRef s1) h1 Hc1). cbv beta.
    rewrite (bind_ok _ _ h1 (VRef s2) h2 Hc2). reflexivity.
  - intros E. inversion E; subst. congruence.
  - unfold __len__. eapply getattr_ok; [exact Hs1'' | apply lookup_insert_eq].
  - unfold __len__. eapply getattr_ok; [exact Hs2' | apply lookup_insert_eq].
  - intros index. unfold __getitem__. eapply getattr_ok; [exact Hs1'' |].
    rewrite lookup_insert_ne by done. apply lookup_insert_eq.
  - intros index. unfold __getitem__. eapply getattr_ok; [exact Hs2' |].
    rewrite lookup_insert_ne by done. apply lookup_insert_eq.
  - intros E. inversion E; subst. congruence.
  - unfold dict_getitem. rewrite Hd1'', lookup_insert_eq. reflexivity.
  - unfold dict_getitem. rewrite Hd2', lookup_insert_eq. reflexivity.
  - intros E. inversion E; subst. congruence.
  - eapply array_value_intro; eauto.
  - eapply array_value_intro; eauto.
  - apply (ndarray_setflat_run h2 ad1 (1%nat :: si) bi ci i x Ha1'' Hb Hlt).
  - apply (array_value_written h2 ad2 (1%nat :: si) bi ci _ Ha2' Hb).
Qed.

End ConstructorFacts.

(** ** Loading, further *)

Section LoadFacts.

Context {elt : Type}.

Abbreviation heap := (gmap loc (obj elt)).

Implicit Types (h : heap) (l : loc) (o : obj elt) (v : value).

Variable float32 : elt -> elt.

(** [astype] allocates the new storage and the new array at locations
    unused before. *)
Lemma ndarray_astype_run cast h a s cells :
  array_value h a = Some (s, cells) ->
  exists l' b' h',
    ndarray_astype cast a h = (Ok (VRef l'), h') /\
    h !! b' = None /\ h !! l' = None /\
    h' !! l' = Some (ONdarray s b') /\
    h' !! b' = Some (OBuffer (cast <$> cells)) /\
    (forall l o, h !! l = Some o -> h' !! l = Some o).
Proof.
  intros (l & b & -> & Hl & Hb)%array_value_inv.
  set (b' := fresh (dom h)).
  set (h1 := <[b' := OBuffer (cast <$> cells)]> h).
  set (l' := fresh (dom h1)).
  assert (Hb' : h !! b' = None) by apply fresh_unused.
  assert (Hl' : h1 !! l' = None) by apply fresh_unused.
  assert (Hne : l' <> b').
  { intros E. rewrite E in Hl'. unfold h1 in Hl'.
    rewrite lookup_insert_eq in Hl'. discriminate. }
  exists l', b', (<[l' := ONdarray s b']> h1).
  repeat match goal with |- _ /\ _ => split end.
  - unfold ndarray_astype. rewrite Hl, Hb. reflexivity.
  - exact Hb'.
  - unfold h1 in Hl'. rewrite lookup_insert_ne in Hl' by (apply not_eq_sym, Hne).
    exact Hl'.
  - apply lookup_insert_eq.
  - rewrite lookup_insert_ne by exact Hne. apply lookup_insert_eq.
  - intros l0 o Hl0. apply lookup_alloc_old, lookup_alloc_old, Hl0.
Qed.

Lemma ndarray_astype_fails cast h a :
  array_value h a = None -> exists e, ndarray_astype cast a h = (Raise e, h).
Proof.
  unfold array_value, ndarray_astype. intros H.
  destruct a as [| z | l]; eauto.
  destruct (h !! l) as [[| s b | |] |]; eauto.
  destruct (h !! b) as [[c | | |] |]; eauto. discriminate.
Qed.

(** The cell, once the two conversions are done. *)
Lemma load_volumes_steps h img_read mask_read img h1 mask h2 si sm :
  ndarray_astype float32 img_read h = (Ok img, h1) ->
  ndarray_astype float32 mask_read h1 = (Ok mask, h2) ->
  ndarray_shape mask h2 = (Ok sm, h2) ->
  ndarray_shape img h2 = (Ok si, h2) ->
  load_volumes float32 img_read mask_read h
  = (if decide (sm = si) then Ok (img, mask) else Raise AssertionError, h2).
Proof.
  intros E1 E2 S2 S1. unfold load_volumes.
  rewrite (bind_ok _ _ h img h1 E1). cbv beta.
  rewrite (bind_ok _ _ h1 mask h2 E2). cbv beta.
  rewrite (bind_ok _ _ h2 sm h2 S2). cbv beta.
  rewrite (bind_ok _ _ h2 si h2 S1). cbv beta.
  unfold bind, py_assert.
  destruct (decide (sm = si)) as [Heq | Hne].
  - rewrite bool_decide_eq_true_2 by exact Heq. reflexivity.
  - rewrite bool_decide_eq_false_2 by exact Hne. reflexivity.
Qed.

(** X9: whenever loading returns, the image and the label it returns are
    arrays of one and the same shape, and the image read from disk was an
    array of that shape: no pair of volumes with different shapes gets
    past the cell. *)
Theorem loaded_volumes_have_equal_shape h img_read mask_read img mask h' :
  load_volumes float32 img_read mask_read h = (Ok (img, mask), h') ->
  exists s ci cm,
    array_value h img_read = Some (s, ci) /\
    array_value h' img = Some (s, float32 <$> ci) /\
    array_value h' mask = Some (s, float32 <$> cm).
Proof.
  intros Hload.
  destruct (array_value h img_read) as [[si ci] |] eqn:Vi.
  2:{ destruct (ndarray_astype_fails float32 h img_read Vi) as [e He].
      unfold load_volumes in Hload.
      rewrite (bind_raise _ _ h e h He) in Hload. discriminate. }
  destruct (ndarray_astype_ok float32 h img_read si ci Vi)
    as (l1 & h1 & E1 & V1 & Hold1).
  destruct (array_value h1 mask_read) as [[sm cm] |] eqn:Vm.
  2:{ destruct (ndarray_astype_fails float32 h1 mask_read Vm) as [e He].
      unfold load_volumes in Hload.
      rewrite (bind_ok _ _ h (VRef l1) h1 E1) in Hload. cbv beta in Hload.
      rewrite (bind_raise _ _ h1 e h1 He) in Hload. discriminate. }
  destruct (ndarray_astype_ok float32 h1 mask_read sm cm Vm)
    as (l2 & h2 & E2 & V2 & Hold2).
  pose proof (array_value_mono h1 h2 _ _ _ Hold2 V1) as V1'.
  rewrite (load_volumes_steps h img_read mask_read (VRef l1) h1 (VRef l2) h2 si sm
             E1 E2 (array_value_shape _ _ _ _ V2) (array_value_shape _ _ _ _ V1'))
    in Hload.
  destruct (decide (sm = si)) as [-> | Hne]; [| discriminate].
  inversion Hload; subst. exists si, ci, cm. auto.
Qed.

(** X8: the loaded volumes are copies with storage of their own: an
    element written into the loaded image changes neither the loaded
    label nor either of the arrays read from disk (even when those two are
    one and the same array). *)
Theorem loaded_volumes_are_independent
  h img_read mask_read s ci cm (i : nat) (x : elt) :
  array_value h img_read = Some (s, ci) ->
  array_value h mask_read = Some (s, cm) ->
  (i < length ci)%nat ->
  exists img mask h1 h2,
    load_volumes float32 img_read mask_read h = (Ok (img, mask), h1) /\
    ndarray_setflat img i x h1 = (Ok tt, h2) /\
    array_value h2 img = Some (s, <[i := x]> (float32 <$> ci)) /\
    array_value h2 mask = Some (s, float32 <$> cm) /\
    array_value h2 img_read = Some (s, ci) /\
    array_value h2 mask_read = Some (s, cm).
Proof.
  intros Vi Vm Hlt.
  destruct (ndarray_astype_run float32 h img_read s ci Vi)
    as (l1 & b1 & h1 & E1 & Fb1 & Fl1 & Hl1 & Hb1 & Hold1).
  pose proof (array_value_mono h h1 _ _ _ Hold1 Vm) as Vm1.
  destruct (ndarray_astype_run float32 h1 mask_read s cm Vm1)
    as (l2 & b2 & h2 & E2 & Fb2 & Fl2 & Hl2 & Hb2 & Hold2).
  pose proof (Hold2 _ _ Hl1) as Hl1'. pose proof (Hold2 _ _ Hb1) as Hb1'.
  assert (E : load_volumes float32 img_read mask_read h
              = (Ok (VRef l1, VRef l2), h2)).
  { rewrite (load_volumes_steps h img_read mask_read (VRef l1) h1 (VRef l2) h2 s s
               E1 E2 (ndarray_shape_ok _ _ _ _ Hl2) (ndarray_shape_ok _ _ _ _ Hl1')).
    destruct (decide (s = s)); [reflexivity | contradiction]. }
  apply array_value_inv in Vi as (li & bi & -> & Hli & Hbi).
  apply array_value_inv in Vm as (lm & bm & -> & Hlm & Hbm).
  exists (VRef l1), (VRef l2), h2, (<[b1 := OBuffer (<[i := x]> (float32 <$> ci))]> h2).
  repeat match goal with |- _ /\ _ => split end.
  - exact E.
  - apply (ndarray_setflat_run h2 l1 s b1 (float32 <$> ci) i x Hl1' Hb1').
    rewrite length_fmap. exact Hlt.
  - apply (array_value_written h2 l1 s b1 _ _ Hl1' Hb1').
  - apply (array_value_unwritten h2 l2 s b2 _ b1 _ _ Hl2 Hb2 Hb1').
    intros ->. congruence.
  - apply (array_value_unwritten h2 li s bi ci b1 _ _
             (Hold2 _ _ (Hold1 _ _ Hli)) (Hold2 _ _ (Hold1 _ _ Hbi)) Hb1').
    intros ->. congruence.
  - apply (array_value_unwritten h2 lm s bm cm b1 _ _
             (Hold2 _ _ (Hold1 _ _ Hlm)) (Hold2 _ _ (Hold1 _ _ Hbm)) Hb1').
    intros ->. congruence.
Qed.

End LoadFacts.

(** ** The slice *)

Section SliceFacts.

Context {elt : Type}.

Local Open Scope nat_scope.

Lemma wrap_index_Some (k : Z) (d k' : nat) :
  wrap_index k d = Some k' ->
  (- Z.of_nat d <= k < Z.of_nat d)%Z /\ k' < d /\
  k' = Z.to_nat (k mod Z.of_nat d).
Proof.
  unfold wrap_index. intros H.
  destruct (decide (0 <= k < Z.of_nat d)%Z) as [Hk | Hk].
  - inversion H; subst. rewrite Z.mod_small by exact Hk. lia.
  - destruct (decide (- Z.of_nat d <= k < 0)%Z) as [Hn | Hn]; [| discriminate].
    inversion H; subst.
    rewrite <- (Zmod_unique k (Z.of_nat d) (-1) (k + Z.of_nat d)) by lia. lia.
Qed.

Lemma wrap_index_None (k : Z) (d : nat) :
  wrap_index k d = None <-> ~ (- Z.of_nat d <= k < Z.of_nat d)%Z.
Proof.
  unfold wrap_index.
  destruct (decide (0 <= k < Z.of_nat d)%Z) as [Hk | Hk];
    [split; [discriminate | lia] |].
  destruct (decide (- Z.of_nat d <= k < 0)%Z) as [Hn | Hn];
    [split; [discriminate | lia] |].
  split; [lia | reflexivity].
Qed.

Lemma length_concat_blocks (f : nat -> list elt) (n r : nat) :
  (forall q, q < n -> length (f q) = r) ->
  length (concat (map f (seq 0 n))) = n * r.
Proof.
  induction n as [| n IH]; intros Hf; [reflexivity |].
  rewrite seq_S, map_app, concat_app, length_app, IH by (intros; apply Hf; lia).
  simpl. rewrite app_nil_r, Hf by lia. lia.
Qed.

Lemma lookup_concat_singletons (f : nat -> list elt) (n q : nat) :
  (forall q', q' < n -> length (f q') = 1) -> q < n ->
  concat (map f (seq 0 n)) !! q = f q !! 0.
Proof.
  induction n as [| n IH]; intros Hf Hq; [lia |].
  rewrite seq_S, map_app, concat_app. simpl. rewrite app_nil_r.
  assert (Hlen : length (concat (map f (seq 0 n))) = n * 1)
    by (apply length_concat_blocks; intros; apply Hf; lia).
  destruct (decide (q < n)) as [Hlt | Hge].
  - rewrite lookup_app_l by lia. apply IH; [intros; apply Hf; lia | exact Hlt].
  - assert (q = n) as -> by lia.
    rewrite lookup_app_r by lia. rewrite Hlen.
    replace (n - n * 1) with 0 by lia. reflexivity.
Qed.

(** X10: [a[:, :, k]] depends on the shape alone for whether it succeeds
    and for the shape of the result.  It raises [IndexError] exactly when
    the array has fewer than three axes or [k] lies outside
    [-d2 <= k < d2] for [d2] the length of the third axis; otherwise the
    result has the shape of [a] without its third axis and, for an array
    with as many elements as its shape says, as many elements as that
    shape says.  So two arrays of equal shape, such as the image and the
    mask, give slices of equal shape or fail alike. *)
Theorem slice_shape_and_bounds (s : list nat) (cells : list elt) (k : Z) :
  length cells = shape_size s ->
  (getitem_axis2 (s, cells) k = Raise IndexError
   <-> ~ (3 <= length s /\
          (- Z.of_nat (nth 2 s 0%nat) <= k < Z.of_nat (nth 2 s 0%nat))%Z)) /\
  (forall s' cells',
      getitem_axis2 (s, cells) k = Ok (s', cells') ->
      s' = take 2 s ++ drop 3 s /\ length cells' = shape_size s') /\
  (forall other : list elt,
      match getitem_axis2 (s, cells) k, getitem_axis2 (s, other) k with
      | Ok (s1, _), Ok (s2, _) => s1 = s2
      | Raise e1, Raise e2 => e1 = e2
      | _, _ => False
      end).
Proof.
  intros Hlen. unfold getitem_axis2. cbn [fst snd].
  destruct s as [| d0 [| d1 [| d2 rest]]];
    try (split; [split; [intros _; simpl; lia | reflexivity] |
                 split; [intros ? ? ?; discriminate | intros ?; reflexivity]]).
  cbn [nth length].
  destruct (wrap_index k d2) as [k' |] eqn:Hw.
  - apply wrap_index_Some in Hw as (Hk & Hk' & _).
    split; [split; [discriminate | intros Hn; exfalso; apply Hn; lia] |].
    split; [| intros other; reflexivity].
    intros s' cells' E. inversion E; subst. split; [reflexivity |].
    rewrite (length_concat_blocks _ _ (shape_size rest)).
    + rewrite !shape_size_cons. lia.
    + intros q Hq. rewrite length_take, length_drop, Hlen, !shape_size_cons.
      assert (H1 : q * d2 + k' + 1 <= (q + 1) * d2) by lia.
      assert (H2 : (q + 1) * d2 <= d0 * d1 * d2)
        by (apply Nat.mul_le_mono_r; lia).
      assert (H3 : (q * d2 + k' + 1) * shape_size rest
                   <= d0 * d1 * d2 * shape_size rest)
        by (apply Nat.mul_le_mono_r; lia).
      lia.
  - apply wrap_index_None in Hw.
    split; [split; [intros _ [_ Hk]; contradiction | reflexivity] |].
    split; [intros ? ? ?; discriminate | intros ?; reflexivity].
Qed.

(** X11: for a three-dimensional array, element [(i, j)] of [a[:, :, k]]
    is element [(i, j, k)] of [a], a negative [k] counting from the end of
    the third axis. *)
Theorem slice_elements (d0 d1 d2 : nat) (cells : list elt) (k : Z) (i j : nat) :
  length cells = d0 * d1 * d2 ->
  (- Z.of_nat d2 <= k < Z.of_nat d2)%Z ->
  i < d0 -> j < d1 ->
  exists cells',
    getitem_axis2 ([d0; d1; d2], cells) k = Ok ([d0; d1], cells') /\
    length cells' = d0 * d1 /\
    cells' !! (i * d1 + j)
    = cells !! ((i * d1 + j) * d2 + Z.to_nat (k mod Z.of_nat d2)).
Proof.
  intros Hlen Hk Hi Hj. unfold getitem_axis2. cbn [fst snd].
  destruct (wrap_index k d2) as [k' |] eqn:Hw.
  2:{ apply wrap_index_None in Hw. contradiction. }
  apply wrap_index_Some in Hw as (_ & Hk' & Ek). rewrite <- Ek.
  assert (Hblock : forall q, q < d0 * d1 ->
            length (take (shape_size []) (drop ((q * d2 + k') * shape_size []) cells)) = 1).
  { intros q Hq. rewrite length_take, length_drop, Hlen.
    change (shape_size []) with 1.
    assert (H1 : q * d2 + k' + 1 <= (q + 1) * d2) by lia.
    assert (H2 : (q + 1) * d2 <= d0 * d1 * d2)
      by (apply Nat.mul_le_mono_r; lia).
    lia. }
  eexists. split; [reflexivity |]. split.
  - rewrite (length_concat_blocks _ _ 1) by exact Hblock. lia.
  - assert (Hij : i * d1 + j < d0 * d1).
    { assert (i * d1 + j + 1 <= (i + 1) * d1) by lia.
      assert ((i + 1) * d1 <= d0 * d1) by (apply Nat.mul_le_mono_r; lia).
      lia. }
    rewrite lookup_concat_singletons by (exact Hblock || exact Hij).
    change (shape_size []) with 1.
    rewrite lookup_take_lt by lia. rewrite lookup_drop.
    f_equal. lia.
Qed.

End SliceFacts.

(** ** Concrete runs *)

Example construct_ten :
  fst (CustomDataset base0 img0 mask0 (VInt 10) store0) = Ok ds0.
Proof. vm_compute. reflexivity. Qed.

Example len_ten : fst (__len__ ds0 store1) = Ok (VInt 10).
Proof. vm_compute. reflexivity. Qed.

Example getitem_three_and_seven :
  fst (__getitem__ ds0 (VInt 3) store1) = Ok (VRef 10%positive) /\
  fst (__getitem__ ds0 (VInt 7) store1) = Ok (VRef 10%positive).
Proof. split; vm_compute; reflexivity. Qed.

Example stored_image_value :
  array_value store1 (VRef 8%positive)
  = Some ([1; 2; 3]%nat, [10; 20; 30; 40; 50; 60]).
Proof. vm_compute. reflexivity. Qed.

(** A write through the sample of index 0 shows in the sample of index 9
    and in the image the dataset was built from. *)
Example write_through_alias :
  fst (bind (__getitem__ ds0 (VInt 0)) (fun s0 =>
       bind (dict_getitem s0 "data") (fun a =>
       bind (ndarray_setflat a 4 99) (fun _ =>
       bind (__getitem__ ds0 (VInt 9)) (fun s9 =>
       bind (dict_getitem s9 "data") (fun a9 h =>
         (Ok (array_value h a9, array_value h img0), h)))))) store1)
  = Ok (Some ([1; 2; 3]%nat, [10; 20; 30; 40; 99; 60]),
        Some ([2; 3]%nat, [10; 20; 30; 40; 99; 60])).
Proof. vm_compute. reflexivity. Qed.

Example load_equal_shapes :
  fst (load_volumes (fun x => x) img0 mask0 store0)
  = Ok (VRef 8%positive, VRef 10%positive).
Proof. vm_compute. reflexivity. Qed.

Example load_different_shapes :
  fst (load_volumes (fun x => x) img0 other0 store0) = Raise AssertionError.
Proof. vm_compute. reflexivity. Qed.

Example reshape_rejects_wrong_size :
  fst (ndarray_reshape img0 [4; 2] store0) = Raise ValueError.
Proof. vm_compute. reflexivity. Qed.

Example reshape_infers_axis :
  fst (bind (ndarray_reshape img0 [3; -1]) (fun a => ndarray_shape a) store0)
  = Ok [3; 2]%nat.
Proof. vm_compute. reflexivity. Qed.

Example len_builtin_rejects_negative :
  fst (bind (CustomDataset base0 img0 mask0 (VInt (-3)))
         (fun ds => py_len ds) store0) = Raise ValueError.
Proof. vm_compute. reflexivity. Qed.

Example pass_ten_by_four :
  fst (one_pass (@rev nat) {| dataset := ds0; batch_size := 4;
                              stages := transforms 5 2;
                              sampler := SequentialSampler;
                              n_process_augmentation := 4 |} store1)
  = Ok [ replicate 4 (VRef 10%positive); replicate 4 (VRef 10%positive);
         replicate 2 (VRef 10%positive) ].
Proof. vm_compute. reflexivity. Qed.

(** The theorems above, applied to [store0]. *)

Lemma len_is_num_samples_witness :
  ndarray_shape img0 store0 = (Ok [2; 3]%nat, store0) /\
  ndarray_shape mask0 store0 = (Ok [2; 3]%nat, store0) /\
  exists ds h',
    CustomDataset base0 img0 mask0 (VInt 10) store0 = (Ok ds, h') /\
    __len__ ds h' = (Ok (VInt 10), h').
Proof.
  split; [reflexivity |]. split; [reflexivity |].
  apply (len_is_num_samples base0 store0 img0 mask0 [2; 3]%nat [2; 3]%nat 10);
    reflexivity.
Defined.

Lemma getitem_total_witness :
  ndarray_shape img0 store0 = (Ok [2; 3]%nat, store0) /\
  ndarray_shape mask0 store0 = (Ok [2; 3]%nat, store0) /\
  exists ds h' d items,
    CustomDataset base0 img0 mask0 (VInt 10) store0 = (Ok ds, h') /\
    getattr ds "data" h' = (Ok (VRef d), h') /\
    h' !! d = Some (ODict items) /\
    forall index : Z, __getitem__ ds (VInt index) h' = (Ok (VRef d), h').
Proof.
  split; [reflexivity |]. split; [reflexivity |].
  apply (getitem_total base0 store0 img0 mask0 [2; 3]%nat [2; 3]%nat 10);
    reflexivity.
Defined.

Lemma getitem_never_raises_witness :
  ndarray_shape img0 store0 = (Ok [2; 3]%nat, store0) /\
  ndarray_shape mask0 store0 = (Ok [2; 3]%nat, store0) /\
  exists ds h',
    CustomDataset base0 img0 mask0 (VInt 10) store0 = (Ok ds, h') /\
    forall index : Z,
      (forall e h'', __getitem__ ds (VInt index) h' <> (Raise e, h'')) /\
      snd (__getitem__ ds (VInt index) h') = h'.
Proof.
  split; [reflexivity |]. split; [reflexivity |].
  apply (getitem_never_raises base0 store0 img0 mask0 [2; 3]%nat [2; 3]%nat 10);
    reflexivity.
Defined.

Lemma getitem_valid_returns_stored_sample_witness :
  array_value store0 img0 = Some ([2; 3]%nat, [10; 20; 30; 40; 50; 60]) /\
  array_value store0 mask0 = Some ([2; 3]%nat, [0; 0; 1; 1; 2; 3]) /\
  exists ds h' sample a_img a_label,
    CustomDataset base0 img0 mask0 (VInt 10) store0 = (Ok ds, h') /\
    __len__ ds h' = (Ok (VInt 10), h') /\
    dict_getitem sample "data" h' = (Ok a_img, h') /\
    dict_getitem sample "label" h' = (Ok a_label, h') /\
    array_value h' a_img = Some ([1; 2; 3]%nat, [10; 20; 30; 40; 50; 60]) /\
    array_value h' a_label = Some ([1; 2; 3]%nat, [0; 0; 1; 1; 2; 3]) /\
    forall i : Z, 0 <= i < 10 ->
      __getitem__ ds (VInt i) h' = (Ok sample, h').
Proof.
  split; [reflexivity |]. split; [reflexivity |].
  apply (getitem_valid_returns_stored_sample base0 store0 img0 mask0
           [2; 3]%nat [10; 20; 30; 40; 50; 60]
           [2; 3]%nat [0; 0; 1; 1; 2; 3] 10); reflexivity.
Defined.

Lemma stored_sample_has_channel_axis_witness :
  ndarray_shape img0 store0 = (Ok [2; 3]%nat, store0) /\
  ndarray_shape mask0 store0 = (Ok [2; 3]%nat, store0) /\
  exists ds h' sample a_img a_label li bi lm bm,
    CustomDataset base0 img0 mask0 (VInt 10) store0 = (Ok ds, h') /\
    dict_getitem sample "data" h' = (Ok (VRef a_img), h') /\
    dict_getitem sample "label" h' = (Ok (VRef a_label), h') /\
    img0 = VRef li /\ h' !! li = Some (ONdarray [2; 3]%nat bi) /\
    mask0 = VRef lm /\ h' !! lm = Some (ONdarray [2; 3]%nat bm) /\
    h' !! a_img = Some (ONdarray [1; 2; 3]%nat bi) /\
    h' !! a_label = Some (ONdarray [1; 2; 3]%nat bm) /\
    forall index : Z, __getitem__ ds (VInt index) h' = (Ok sample, h').
Proof.
  split; [reflexivity |]. split; [reflexivity |].
  apply (stored_sample_has_channel_axis base0 store0 img0 mask0
           [2; 3]%nat [2; 3]%nat 10); reflexivity.
Defined.

Lemma getitem_aliases_one_dict_witness :
  ndarray_shape img0 store0 = (Ok [2; 3]%nat, store0) /\
  ndarray_shape mask0 store0 = (Ok [2; 3]%nat, store0) /\
  exists self h' sample,
    CustomDataset base0 img0 mask0 (VInt 10) store0 = (Ok (VRef self), h') /\
    (forall i j : Z,
        __getitem__ (VRef self) (VInt i) h' = (Ok sample, h') /\
        __getitem__ (VRef self) (VInt j) h' = (Ok sample, h')) /\
    (forall (t : list access) (index : value),
        fst (run_access (VRef self) (AGet index)
               (snd (run_trace (VRef self) t h'))) = Ok sample) /\
    (forall (pre mid : list access) (i j : value) (k : string) (v : value),
        forallb (fun a => negb (writes_key k a)) mid = true ->
        fst (run_access (VRef self) (ARead j k)
               (snd (run_trace (VRef self) (pre ++ AWrite i k v :: mid) h')))
        = Ok v) /\
    (forall (h'' : gmap loc (obj Z)) (j : value),
        h'' !! self = h' !! self ->
        __getitem__ (VRef self) j h'' = (Ok sample, h'')).
Proof.
  split; [reflexivity |]. split; [reflexivity |].
  apply (getitem_aliases_one_dict base0 store0 img0 mask0
           [2; 3]%nat [2; 3]%nat 10); reflexivity.
Defined.

Lemma load_volumes_checks_shape_only_witness :
  array_value store0 img0 = Some ([2; 3]%nat, [10; 20; 30; 40; 50; 60]) /\
  array_value store0 other0 = Some ([2; 2]%nat, [7; 7; 7; 7]) /\
  exists img mask h',
    load_volumes Z.abs img0 other0 store0
    = (if decide ([2; 2]%nat = [2; 3]%nat) then Ok (img, mask)
       else Raise AssertionError, h') /\
    array_value h' img = Some ([2; 3]%nat, Z.abs <$> [10; 20; 30; 40; 50; 60]) /\
    array_value h' mask = Some ([2; 2]%nat, Z.abs <$> [7; 7; 7; 7]) /\
    forall (B : Type) (rest : value * value -> M Z B),
      [2; 2]%nat <> [2; 3]%nat ->
      bind (load_volumes Z.abs img0 other0) rest store0
      = (Raise AssertionError, h').
Proof.
  split; [reflexivity |]. split; [reflexivity |].
  apply (load_volumes_checks_shape_only Z.abs store0 img0 other0
           [2; 3]%nat [10; 20; 30; 40; 50; 60] [2; 2]%nat [7; 7; 7; 7]);
    reflexivity.
Defined.


(** C2 as the spec words it fails: on the ten-sample dataset the indices
    [-1] and [10] are out of range, and [__getitem__] returns the sample
    for both instead of raising [IndexError]. *)
Lemma getitem_out_of_range_returns :
  fst (CustomDataset base0 img0 mask0 (VInt 10) store0) = Ok ds0 /\
  fst (__len__ ds0 store1) = Ok (VInt 10) /\
  fst (__getitem__ ds0 (VInt (-1)) store1) = Ok (VRef 10%positive) /\
  fst (__getitem__ ds0 (VInt 10) store1) = Ok (VRef 10%positive) /\
  ~ (forall index : Z,
        (exists h'', __getitem__ ds0 (VInt index) store1 = (Raise IndexError, h''))
        <-> (index < 0 \/ 10 <= index)).
Proof.
  split; [vm_compute; reflexivity |].
  split; [vm_compute; reflexivity |].
  split; [vm_compute; reflexivity |].
  split; [vm_compute; reflexivity |].
  intros H. destruct (H (-1)) as [_ Hraise].
  destruct Hraise as [h'' Hr]; [left; lia |].
  apply (f_equal fst) in Hr. vm_compute in Hr. discriminate Hr.
Qed.

(** ** Concrete pipeline runs *)

(** Draws [1, 1] place a 2 x 2 window at row 1, column 1, in the image and
    in the label alike. *)
Example crop_window_is_shared :
  (fun o => (o.1 !! "data"%string, o.1 !! "label"%string))
    <$> apply nearest nearest scale center
          (RandomCropTransform (2, 2)%nat "label") tiny [1; 1]%nat
  = Some (Some [[[5; 6]; [8; 9]]], Some [[[1; 1]; [1; 1]]]).
Proof. vm_compute. reflexivity. Qed.

(** A crop larger than the input has no result. *)
Example crop_too_large :
  apply nearest nearest scale center
    (RandomCropTransform (150, 150)%nat "label") tiny [1; 1]%nat = None.
Proof. vm_compute. reflexivity. Qed.

Example small_pipeline :
  (fun o => (o.1 !! "data"%string, o.1 !! "label"%string))
    <$> Compose nearest nearest scale center
          [ RandomCropTransform (2, 2)%nat "label";
            ResizeTransform (3, 2)%nat "label";
            ContrastAugmentationTransform;
            MeanStdNormalizationTransform [4] [2] ] tiny [1; 1; 2]%nat
  = Some (Some [[[3; 4]; [3; 4]; [6; 7]]], Some [[[1; 1]; [1; 1]; [1; 1]]]).
Proof. vm_compute. reflexivity. Qed.

Lemma pipeline_output_has_target_size_witness :
  wide !! "data"%string = Some [wide_img] /\
  wide !! "label"%string = Some wide_lbl /\
  has_size 160 170 [wide_img] = true /\
  has_size 160 170 wide_lbl = true /\
  (0 < length wide_lbl)%nat /\
  (150 <= 160)%nat /\ (150 <= 170)%nat /\
  exists out r' img' lbl',
    Compose nearest nearest scale center (transforms 5 2) wide [3; 8; 2]%nat
    = Some (out, r') /\
    out !! "data"%string = Some img' /\
    out !! "label"%string = Some lbl' /\
    has_size 224 224 img' = true /\
    has_size 224 224 lbl' = true /\
    spatial_size img' = Some (224, 224)%nat /\
    spatial_size lbl' = Some (224, 224)%nat /\
    length img' = 1%nat /\
    length lbl' = length wide_lbl.
Proof.
  split; [reflexivity |]. split; [reflexivity |].
  split; [vm_compute; reflexivity |]. split; [vm_compute; reflexivity |].
  split; [simpl; lia |]. split; [lia |]. split; [lia |].
  apply (pipeline_output_has_target_size nearest nearest scale center 5 2
           wide [3; 8; 2]%nat wide_img wide_lbl 160%nat 170%nat);
    [reflexivity | reflexivity | vm_compute; reflexivity
    | vm_compute; reflexivity | simpl; lia | lia | lia].
Defined.


(** ** Further concrete runs *)

Example slice_middle :
  getitem_axis2 volume0 1 = Ok ([2; 2]%nat, [2; 5; 8; 11]).
Proof. reflexivity. Qed.

Example slice_from_the_end :
  getitem_axis2 volume0 (-1) = Ok ([2; 2]%nat, [3; 6; 9; 12]).
Proof. reflexivity. Qed.

Example slice_out_of_range :
  getitem_axis2 volume0 3 = Raise IndexError /\
  getitem_axis2 volume0 (-4) = Raise IndexError /\
  img_slice volume0 = Raise IndexError.
Proof. repeat split. Qed.

Example slice_of_a_matrix :
  getitem_axis2 ([2; 3]%nat, [1; 2; 3; 4; 5; 6]) 0 = Raise IndexError.
Proof. reflexivity. Qed.

Example len_builtin_rejects_huge :
  fst (bind (CustomDataset base0 img0 mask0 (VInt (2 ^ 63)))
         (fun ds => py_len ds) store0) = Raise OverflowError.
Proof. vm_compute. reflexivity. Qed.

Example len_builtin_accepts_maxsize :
  fst (bind (CustomDataset base0 img0 mask0 (VInt (2 ^ 63 - 1)))
         (fun ds => bind (__len__ ds) (fun n => ret n)) store0)
  = Ok (VInt sys_maxsize).
Proof. vm_compute. reflexivity. Qed.

Example reshape_infers_any_negative :
  fst (bind (ndarray_reshape img0 [3; -5]) (fun a => ndarray_shape a) store0)
  = Ok [3; 2]%nat /\
  fst (ndarray_reshape img0 [-1; -1] store0) = Raise ValueError.
Proof. split; vm_compute; reflexivity. Qed.

Example construct_from_none :
  fst (CustomDataset base0 VNone mask0 (VInt 10) store0) = Raise AttributeError.
Proof. vm_compute. reflexivity. Qed.

Lemma construction_leaves_arguments_untouched_witness :
  array_value store0 img0 = Some ([2; 3]%nat, [10; 20; 30; 40; 50; 60]) /\
  array_value store0 mask0 = Some ([2; 3]%nat, [0; 0; 1; 1; 2; 3]) /\
  exists self d ad al h',
    CustomDataset base0 img0 mask0 (VInt 10) store0 = (Ok (VRef self), h') /\
    (forall index, __getitem__ (VRef self) index h' = (Ok (VRef d), h')) /\
    dict_getitem (VRef d) "data" h' = (Ok (VRef ad), h') /\
    dict_getitem (VRef d) "label" h' = (Ok (VRef al), h') /\
    NoDup [self; ad; al; d] /\
    store0 !! self = None /\ store0 !! ad = None /\
    store0 !! al = None /\ store0 !! d = None /\
    (forall l o, store0 !! l = Some o -> h' !! l = Some o) /\
    array_value h' img0 = Some ([2; 3]%nat, [10; 20; 30; 40; 50; 60]) /\
    array_value h' mask0 = Some ([2; 3]%nat, [0; 0; 1; 1; 2; 3]) /\
    array_value h' (VRef ad) = Some ([1; 2; 3]%nat, [10; 20; 30; 40; 50; 60]) /\
    array_value h' (VRef al) = Some ([1; 2; 3]%nat, [0; 0; 1; 1; 2; 3]).
Proof.
  split; [reflexivity |]. split; [reflexivity |].
  apply (construction_leaves_arguments_untouched base0 store0 img0 mask0
           [2; 3]%nat [10; 20; 30; 40; 50; 60]
           [2; 3]%nat [0; 0; 1; 1; 2; 3] (VInt 10)); reflexivity.
Defined.

Lemma base_attributes_survive_witness :
  ndarray_shape img0 store0 = (Ok [2; 3]%nat, store0) /\
  ndarray_shape mask0 store0 = (Ok [2; 3]%nat, store0) /\
  exists ds h' attrs d,
    CustomDataset base0 img0 mask0 (VInt 10) store0 = (Ok ds, h') /\
    instance_dict h' ds = Some attrs /\
    attrs !! "data"%string = Some (VRef d) /\
    (forall index, __getitem__ ds index h' = (Ok (VRef d), h')) /\
    attrs !! "num_samples"%string = Some (VInt 10) /\
    forall name : string,
      name <> "data"%string -> name <> "num_samples"%string ->
      attrs !! name = base0 ∅ !! name.
Proof.
  split; [reflexivity |]. split; [reflexivity |].
  apply (base_attributes_survive base0 store0 img0 mask0
           [2; 3]%nat [2; 3]%nat (VInt 10)); reflexivity.
Defined.

Lemma construction_rejects_none_int_dict_witness :
  lacks_reshape store0 VNone = true /\
  exists h',
    CustomDataset base0 VNone mask0 (VInt 10) store0
    = (Raise AttributeError, h') /\
    (forall l o, store0 !! l = Some o -> h' !! l = Some o).
Proof.
  split; [reflexivity |].
  apply (construction_rejects_none_int_dict base0 store0 VNone mask0
           [] (VInt 10)).
  left. reflexivity.
Defined.

Lemma num_samples_is_not_validated_witness :
  ndarray_shape img0 store0 = (Ok [2; 3]%nat, store0) /\
  ndarray_shape mask0 store0 = (Ok [2; 3]%nat, store0) /\
  exists ds h',
    CustomDataset base0 img0 mask0 (VInt (2 ^ 63)) store0 = (Ok ds, h') /\
    __len__ ds h' = (Ok (VInt (2 ^ 63)), h') /\
    (forall z : Z, VInt (2 ^ 63) = VInt z ->
        py_len ds h'
        = (if decide (z < 0) then Raise ValueError
           else if decide (sys_maxsize < z) then Raise OverflowError
           else Ok (Z.to_nat z), h')) /\
    (VInt (2 ^ 63) = VNone -> py_len ds h' = (Raise TypeError, h')).
Proof.
  split; [reflexivity |]. split; [reflexivity |].
  apply (num_samples_is_not_validated base0 store0 img0 mask0
           [2; 3]%nat [2; 3]%nat (VInt (2 ^ 63))); reflexivity.
Defined.

Lemma sample_has_two_keys_witness :
  ndarray_shape img0 store0 = (Ok [2; 3]%nat, store0) /\
  ndarray_shape mask0 store0 = (Ok [2; 3]%nat, store0) /\
  exists ds h' sample,
    CustomDataset base0 img0 mask0 (VInt 10) store0 = (Ok ds, h') /\
    (forall index, __getitem__ ds index h' = (Ok sample, h')) /\
    forall k : string,
      dict_getitem sample k h' = (Raise KeyError, h')
      <-> (k <> "data"%string /\ k <> "label"%string).
Proof.
  split; [reflexivity |]. split; [reflexivity |].
  apply (sample_has_two_keys base0 store0 img0 mask0
           [2; 3]%nat [2; 3]%nat (VInt 10)); reflexivity.
Defined.

Lemma sample_shares_storage_with_image_witness :
  array_value store0 img0 = Some ([2; 3]%nat, [10; 20; 30; 40; 50; 60]) /\
  ndarray_shape mask0 store0 = (Ok [2; 3]%nat, store0) /\
  (4 < length [10; 20; 30; 40; 50; 60])%nat /\
  exists ds h' sample a_img h1,
    CustomDataset base0 img0 mask0 (VInt 10) store0 = (Ok ds, h') /\
    dict_getitem sample "data" h' = (Ok a_img, h') /\
    array_value h' a_img = Some ([1; 2; 3]%nat, [10; 20; 30; 40; 50; 60]) /\
    ndarray_setflat img0 4 99 h' = (Ok tt, h1) /\
    (forall index, __getitem__ ds index h1 = (Ok sample, h1)) /\
    dict_getitem sample "data" h1 = (Ok a_img, h1) /\
    array_value h1 a_img
    = Some ([1; 2; 3]%nat, <[4%nat := 99]> [10; 20; 30; 40; 50; 60]) /\
    ndarray_setflat a_img 4 99 h' = (Ok tt, h1) /\
    array_value h1 img0
    = Some ([2; 3]%nat, <[4%nat := 99]> [10; 20; 30; 40; 50; 60]).
Proof.
  split; [reflexivity |]. split; [reflexivity |]. split; [simpl; lia |].
  apply (sample_shares_storage_with_image base0 store0 img0 mask0
           [2; 3]%nat [10; 20; 30; 40; 50; 60] [2; 3]%nat (VInt 10) 4%nat 99);
    [reflexivity | reflexivity | simpl; lia].
Defined.

Lemma train_and_val_share_storage_witness :
  array_value store0 img0 = Some ([2; 3]%nat, [10; 20; 30; 40; 50; 60]) /\
  ndarray_shape mask0 store0 = (Ok [2; 3]%nat, store0) /\
  (4 < length [10; 20; 30; 40; 50; 60])%nat /\
  exists tr va h2 s_tr s_va a_tr a_va h3,
    bind (dataset_train base0 img0 mask0) (fun tr =>
      bind (dataset_val base0 img0 mask0) (fun va =>
        ret (tr, va))) store0 = (Ok (tr, va), h2) /\
    tr <> va /\
    __len__ tr h2 = (Ok (VInt 10000), h2) /\
    __len__ va h2 = (Ok (VInt 1), h2) /\
    (forall index, __getitem__ tr index h2 = (Ok s_tr, h2)) /\
    (forall index, __getitem__ va index h2 = (Ok s_va, h2)) /\
    s_tr <> s_va /\
    dict_getitem s_tr "data" h2 = (Ok a_tr, h2) /\
    dict_getitem s_va "data" h2 = (Ok a_va, h2) /\
    a_tr <> a_va /\
    array_value h2 a_tr = Some ([1; 2; 3]%nat, [10; 20; 30; 40; 50; 60]) /\
    array_value h2 a_va = Some ([1; 2; 3]%nat, [10; 20; 30; 40; 50; 60]) /\
    ndarray_setflat a_tr 4 99 h2 = (Ok tt, h3) /\
    array_value h3 a_va
    = Some ([1; 2; 3]%nat, <[4%nat := 99]> [10; 20; 30; 40; 50; 60]).
Proof.
  split; [reflexivity |]. split; [reflexivity |]. split; [simpl; lia |].
  apply (train_and_val_share_storage base0 store0 img0 mask0
           [2; 3]%nat [10; 20; 30; 40; 50; 60] [2; 3]%nat 4%nat 99);
    [reflexivity | reflexivity | simpl; lia].
Defined.

Lemma loaded_volumes_have_equal_shape_witness :
  load_volumes Z.abs img0 mask0 store0
  = (Ok (VRef 8%positive, VRef 10%positive),
     snd (load_volumes Z.abs img0 mask0 store0)) /\
  exists s ci cm,
    array_value store0 img0 = Some (s, ci) /\
    array_value (snd (load_volumes Z.abs img0 mask0 store0)) (VRef 8%positive)
    = Some (s, Z.abs <$> ci) /\
    array_value (snd (load_volumes Z.abs img0 mask0 store0)) (VRef 10%positive)
    = Some (s, Z.abs <$> cm).
Proof.
  split; [vm_compute; reflexivity |].
  apply (loaded_volumes_have_equal_shape Z.abs store0 img0 mask0
           (VRef 8%positive) (VRef 10%positive)).
  vm_compute. reflexivity.
Defined.

Lemma loaded_volumes_are_independent_witness :
  array_value store0 img0 = Some ([2; 3]%nat, [10; 20; 30; 40; 50; 60]) /\
  array_value store0 mask0 = Some ([2; 3]%nat, [0; 0; 1; 1; 2; 3]) /\
  (4 < length [10; 20; 30; 40; 50; 60])%nat /\
  exists img mask h1 h2,
    load_volumes Z.abs img0 mask0 store0 = (Ok (img, mask), h1) /\
    ndarray_setflat img 4 99 h1 = (Ok tt, h2) /\
    array_value h2 img
    = Some ([2; 3]%nat, <[4%nat := 99]> (Z.abs <$> [10; 20; 30; 40; 50; 60])) /\
    array_value h2 mask = Some ([2; 3]%nat, Z.abs <$> [0; 0; 1; 1; 2; 3]) /\
    array_value h2 img0 = Some ([2; 3]%nat, [10; 20; 30; 40; 50; 60]) /\
    array_value h2 mask0 = Some ([2; 3]%nat, [0; 0; 1; 1; 2; 3]).
Proof.
  split; [reflexivity |]. split; [reflexivity |]. split; [simpl; lia |].
  apply (loaded_volumes_are_independent Z.abs store0 img0 mask0
           [2; 3]%nat [10; 20; 30; 40; 50; 60] [0; 0; 1; 1; 2; 3] 4%nat 99);
    [reflexivity | reflexivity | simpl; lia].
Defined.

Lemma slice_shape_and_bounds_witness :
  length (snd volume0) = shape_size (fst volume0) /\
  (getitem_axis2 volume0 1 = Raise IndexError
   <-> ~ ((3 <= length (fst volume0))%nat /\
          - Z.of_nat (nth 2 (fst volume0) 0%nat) <= 1
            < Z.of_nat (nth 2 (fst volume0) 0%nat))) /\
  (forall s' cells',
      getitem_axis2 volume0 1 = Ok (s', cells') ->
      s' = take 2 (fst volume0) ++ drop 3 (fst volume0) /\
      length cells' = shape_size s') /\
  (forall other : list Z,
      match getitem_axis2 volume0 1, getitem_axis2 (fst volume0, other) 1 with
      | Ok (s1, _), Ok (s2, _) => s1 = s2
      | Raise e1, Raise e2 => e1 = e2
      | _, _ => False
      end).
Proof.
  split; [reflexivity |].
  apply (slice_shape_and_bounds (fst volume0) (snd volume0) 1). reflexivity.
Defined.

Lemma slice_elements_witness :
  length (snd volume0) = (2 * 2 * 3)%nat /\
  - Z.of_nat 3 <= -1 < Z.of_nat 3 /\
  (1 < 2)%nat /\ (0 < 2)%nat /\
  exists cells',
    getitem_axis2 ([2; 2; 3]%nat, snd volume0) (-1) = Ok ([2; 2]%nat, cells') /\
    length cells' = (2 * 2)%nat /\
    cells' !! (1 * 2 + 0)%nat
    = snd volume0 !! ((1 * 2 + 0) * 3 + Z.to_nat (-1 mod Z.of_nat 3))%nat.
Proof.
  split; [reflexivity |]. split; [lia |]. split; [lia |]. split; [lia |].
  apply (slice_elements 2 2 3 (snd volume0) (-1) 1 0); [reflexivity | lia | lia | lia].
Defined.
